(** * nyir-domar: the scrape / merge / dedupe / group pipeline

  A shallow embedding of [get_new_verdicts.py] and [csv_to_json.py].

  - Python strings are Rocq strings (the UTF-8 bytes of the text); the
    lexicographic order on bytes is the code-point order Python uses.
  - A pandas cell of an object column is either a Python [str] or the
    missing value [NaN] that [read_csv] produces for an empty field.
  - A DataFrame with the five fixed columns is the list of its rows.
  - The libraries the scripts call into the outside world with
    ([requests], [bs4], [re], [urllib.parse]) are the fields of [Env];
    a raised exception is the [Raise] result. *)

From Stdlib Require Import List String Ascii Bool Arith ZArith Lia.
From Stdlib Require Import Permutation Sorted OrdersEx.
Import ListNotations.
Open Scope string_scope.

(* ===================================================================== *)
(** ** Python built-ins *)
(* ===================================================================== *)

Module Py.

(** *** Whitespace

    Python's [str.isspace] holds of the code points U+0009-U+000D,
    U+001C-U+0020, U+0085, U+00A0, U+1680, U+2000-U+200A, U+2028, U+2029,
    U+202F, U+205F and U+3000.  In the UTF-8 bytes of a text they are the
    following sequences of one, two or three bytes. *)

Definition code (a : ascii) : nat := nat_of_ascii a.

(** U+0009-U+000D and U+001C-U+0020 *)
Definition space1 (a : ascii) : bool :=
  ((9 <=? code a)%nat && (code a <=? 13)%nat)
  || ((28 <=? code a)%nat && (code a <=? 32)%nat).

(** U+0085 (C2 85) and U+00A0 (C2 A0) *)
Definition space2 (a b : ascii) : bool :=
  (code a =? 194)%nat && ((code b =? 133)%nat || (code b =? 160)%nat).

(** U+1680 (E1 9A 80); U+2000-U+200A, U+2028, U+2029, U+202F (E2 80 80-8A,
    A8, A9, AF); U+205F (E2 81 9F); U+3000 (E3 80 80) *)
Definition space3 (a b c : ascii) : bool :=
  ((code a =? 225)%nat && (code b =? 154)%nat && (code c =? 128)%nat)
  || ((code a =? 226)%nat && (code b =? 128)%nat
      && (((128 <=? code c)%nat && (code c <=? 138)%nat)
          || (code c =? 168)%nat || (code c =? 169)%nat || (code c =? 175)%nat))
  || ((code a =? 226)%nat && (code b =? 129)%nat && (code c =? 159)%nat)
  || ((code a =? 227)%nat && (code b =? 128)%nat && (code c =? 128)%nat).

(** [ch.isspace()] for one character [ch], given by its bytes. *)
Definition isspace (ch : string) : bool :=
  match ch with
  | String a EmptyString => space1 a
  | String a (String b EmptyString) => space2 a b
  | String a (String b (String c EmptyString)) => space3 a b c
  | _ => false
  end.

(** Removing, from the front of a list of bytes, every leading sequence that
    one of the three tests accepts. *)
Fixpoint strip_front (p1 : ascii -> bool) (p2 : ascii -> ascii -> bool)
         (p3 : ascii -> ascii -> ascii -> bool) (l : list ascii) : list ascii :=
  match l with
  | [] => l
  | a :: l1 =>
      if p1 a then strip_front p1 p2 p3 l1
      else
        match l1 with
        | [] => l
        | b :: l2 =>
            if p2 a b then strip_front p1 p2 p3 l2
            else
              match l2 with
              | [] => l
              | c :: l3 => if p3 a b c then strip_front p1 p2 p3 l3 else l
              end
        end
  end.

(** Leading whitespace is read front to back, trailing whitespace back to
    front. *)
Definition lstrip_bytes (l : list ascii) : list ascii :=
  strip_front space1 space2 space3 l.

Definition rstrip_bytes (l : list ascii) : list ascii :=
  rev (strip_front space1 (fun b a => space2 a b) (fun c b a => space3 a b c)
                   (rev l)).

Definition lstrip (s : string) : string :=
  string_of_list_ascii (lstrip_bytes (list_ascii_of_string s)).

Definition rstrip (s : string) : string :=
  string_of_list_ascii (rstrip_bytes (list_ascii_of_string s)).

(** [s.strip()] *)
Definition strip (s : string) : string := lstrip (rstrip s).

(** [s.startswith(p)] *)
Definition startswith (s p : string) : bool := String.prefix p s.

(** [s.endswith(p)]: some tail of [s] is [p]. *)
Fixpoint endswith (s p : string) : bool :=
  (s =? p) ||
  match s with
  | EmptyString => false
  | String _ s' => endswith s' p
  end.

(** [bool(s)] for a [str]. *)
Definition truthy (s : string) : bool := negb (s =? "").

(** [set(...)]: the distinct elements; the iteration order of a Python set
    is unspecified, so nothing below may depend on the order chosen here. *)
Definition set (l : list string) : list string := nodup string_dec l.

(** [sorted(...)] on strings, a stable insertion sort. *)
Fixpoint insort (x : string) (l : list string) : list string :=
  match l with
  | [] => [x]
  | y :: l' => if String.leb x y then x :: l else y :: insort x l'
  end.

Definition sorted (l : list string) : list string := fold_right insort [] l.

(** Exceptions: a computation returns a value or raises. *)
Inductive result (A : Type) : Type :=
| Ok (a : A)
| Raise.
Arguments Ok {A} a.
Arguments Raise {A}.

Definition bind {A B} (m : result A) (k : A -> result B) : result B :=
  match m with
  | Ok a => k a
  | Raise => Raise
  end.

(** A [for] loop that appends one computed element per item and stops at
    the first exception. *)
Fixpoint for_each {A B} (f : A -> result B) (l : list A) : result (list B) :=
  match l with
  | [] => Ok []
  | x :: l' =>
      bind (f x) (fun y => bind (for_each f l') (fun ys => Ok (y :: ys)))
  end.

End Py.

Notation "x <- m ;; k" := (Py.bind m (fun x => k))
(at level 61, m at next level, right associativity).

(* ===================================================================== *)
(** ** pandas: cells, rows, and the DataFrame operations the script uses *)
(* ===================================================================== *)

Module Pandas.

Inductive cell : Type :=
| NaN
| Str (s : string).

Definition cell_eqb (a b : cell) : bool :=
  match a, b with
  | NaN, NaN => true
  | Str s, Str t => s =? t
  | _, _ => false
  end.

Definition isnull (c : cell) : bool :=
  match c with NaN => true | Str _ => false end.

(** [Series.str.strip()]: missing values stay missing. *)
Definition str_strip (c : cell) : cell :=
  match c with
  | NaN => NaN
  | Str s => Str (Py.strip s)
  end.

(** [Series.astype(bool)] on an object column is Python's [bool(x)];
    [bool(float('nan'))] is [True]. *)
Definition astype_bool (c : cell) : bool :=
  match c with
  | NaN => true
  | Str s => Py.truthy s
  end.

(** [cols] of [main], in order. *)
Inductive column : Type :=
| supreme_case_number
| supreme_case_link
| appeals_case_number
| appeals_case_link
| source_type.

Definition cols : list column :=
  [supreme_case_number; supreme_case_link; appeals_case_number;
   appeals_case_link; source_type].

Definition column_name (c : column) : string :=
  match c with
  | supreme_case_number => "supreme_case_number"
  | supreme_case_link => "supreme_case_link"
  | appeals_case_number => "appeals_case_number"
  | appeals_case_link => "appeals_case_link"
  | source_type => "source_type"
  end.

Definition column_eqb (a b : column) : bool :=
  match a, b with
  | supreme_case_number, supreme_case_number
  | supreme_case_link, supreme_case_link
  | appeals_case_number, appeals_case_number
  | appeals_case_link, appeals_case_link
  | source_type, source_type => true
  | _, _ => false
  end.

(** One row of a frame over [cols]. *)
Record Row : Type := mkRow {
  sup_no : cell;
  sup_link : cell;
  app_no : cell;
  app_link : cell;
  src_type : cell
}.

(** [df[c]] at one row. *)
Definition get (c : column) (r : Row) : cell :=
  match c with
  | supreme_case_number => sup_no r
  | supreme_case_link => sup_link r
  | appeals_case_number => app_no r
  | appeals_case_link => app_link r
  | source_type => src_type r
  end.

(** [df[c] = f(df[c])] at one row. *)
Definition update (c : column) (f : cell -> cell) (r : Row) : Row :=
  match c with
  | supreme_case_number => mkRow (f (sup_no r)) (sup_link r) (app_no r) (app_link r) (src_type r)
  | supreme_case_link => mkRow (sup_no r) (f (sup_link r)) (app_no r) (app_link r) (src_type r)
  | appeals_case_number => mkRow (sup_no r) (sup_link r) (f (app_no r)) (app_link r) (src_type r)
  | appeals_case_link => mkRow (sup_no r) (sup_link r) (app_no r) (f (app_link r)) (src_type r)
  | source_type => mkRow (sup_no r) (sup_link r) (app_no r) (app_link r) (f (src_type r))
  end.

Definition DataFrame : Type := list Row.

(** A scraped tuple [(sup_no, link, app_no, app_link, kind)] of [str]. *)
Definition tuple5 : Type := (string * string * string * string * string)%type.

(** [pd.DataFrame(all_rows, columns=cols)]: every cell is a [str]. *)
Definition row_of_tuple (t : tuple5) : Row :=
  let '(a, b, c, d, e) := t in mkRow (Str a) (Str b) (Str c) (Str d) (Str e).

Definition DataFrame_of (all_rows : list tuple5) : DataFrame :=
  map row_of_tuple all_rows.

(** [df[mask]] where the mask is computed row by row. *)
Definition select (mask : Row -> bool) (df : DataFrame) : DataFrame :=
  filter mask df.

(** [pd.concat(frames, ignore_index=True)] *)
Definition concat (frames : list DataFrame) : DataFrame :=
  List.concat frames.

(** [df.drop_duplicates(subset=c, keep="first")]: a row is dropped when an
    earlier row has the same value in column [c]; two missing values count
    as the same value, a missing value and a string never do. *)
Fixpoint drop_duplicates_from (seen : list cell) (c : column) (df : DataFrame)
  : DataFrame :=
  match df with
  | [] => []
  | r :: rest =>
      if existsb (cell_eqb (get c r)) seen
      then drop_duplicates_from seen c rest
      else r :: drop_duplicates_from (get c r :: seen) c rest
  end.

Definition drop_duplicates (c : column) (df : DataFrame) : DataFrame :=
  drop_duplicates_from [] c df.

(** *** The CSV file *)

(** One data line of the file: the text of its five fields. *)
Record CsvRow : Type := mkCsv {
  f_sup_no : string;
  f_sup_link : string;
  f_app_no : string;
  f_app_link : string;
  f_src_type : string
}.

Definition Csv : Type := list CsvRow.

(** [to_csv] writes a missing value as the empty field ([na_rep='']).
    The file is kept as the texts of its fields: the quoting that the writer
    adds and the reader removes is not shown.  That is what is read back as
    long as no field holds a bare carriage return, which the writer leaves
    unquoted. *)
Definition write_cell (c : cell) : string :=
  match c with
  | NaN => ""
  | Str s => s
  end.

Definition to_csv (df : DataFrame) : Csv :=
  map (fun r => mkCsv (write_cell (sup_no r)) (write_cell (sup_link r))
                      (write_cell (app_no r)) (write_cell (app_link r))
                      (write_cell (src_type r))) df.

(** The field texts [read_csv] takes for a missing value by default. *)
Definition na_values : list string :=
  [""; "#N/A"; "#N/A N/A"; "#NA"; "-1.#IND"; "-1.#QNAN"; "-NaN"; "-nan";
   "1.#IND"; "1.#QNAN"; "<NA>"; "N/A"; "NA"; "NULL"; "NaN"; "None"; "n/a";
   "nan"; "null"].

Definition is_na (s : string) : bool := existsb (String.eqb s) na_values.

(** [read_csv(..., dtype=str)]: text stays text, except that an empty or
    NA-looking field is the missing value. *)
Definition read_cell (s : string) : cell :=
  if is_na s then NaN else Str s.

Definition read_csv (f : Csv) : DataFrame :=
  map (fun l => mkRow (read_cell (f_sup_no l)) (read_cell (f_sup_link l))
                      (read_cell (f_app_no l)) (read_cell (f_app_link l))
                      (read_cell (f_src_type l))) f.

(** *** groupby *)

(** The strings of a column, missing values left out. *)
Fixpoint strings_of (cs : list cell) : list string :=
  match cs with
  | [] => []
  | NaN :: cs' => strings_of cs'
  | Str s :: cs' => s :: strings_of cs'
  end.

(** [df.groupby(c)] iterated: one [(key, group)] per distinct non-missing
    value of column [c] (rows with a missing key belong to no group), keys
    in sorted order, every group in the row order of [df]. *)
Definition group_keys (c : column) (df : DataFrame) : list string :=
  Py.sorted (Py.set (strings_of (map (get c) df))).

Definition group_of (c : column) (df : DataFrame) (k : string) : DataFrame :=
  filter (fun r => cell_eqb (get c r) (Str k)) df.

Definition groupby (c : column) (df : DataFrame) : list (string * DataFrame) :=
  map (fun k => (k, group_of c df k)) (group_keys c df).

(** *** to_dict *)

(** A JSON object / Python dict with string keys, in insertion order. *)
Definition dict : Type := list (string * cell).

(** [df.drop(columns=c)] acts on the column list. *)
Definition drop (c : column) (columns : list column) : list column :=
  filter (fun c' => negb (column_eqb c' c)) columns.

(** [df.to_dict(orient="records")] for a frame restricted to [columns]. *)
Definition to_dict_records (columns : list column) (df : DataFrame) : list dict :=
  map (fun r => map (fun c => (column_name c, get c r)) columns) df.

End Pandas.

(* ===================================================================== *)
(** ** The lookup structure written to [mapping_d_og_a.json] *)
(* ===================================================================== *)

Module Lookup.
Import Pandas.

(** The value stored under one appeals case number: a bare object for a
    group of one, a list of objects otherwise. *)
Inductive group_value : Type :=
| Single (d : dict)
| Many (ds : list dict).

(** The mapping, a Python dict in insertion order. *)
Definition Mapping : Type := list (string * group_value).

(** [mapping[k]] *)
Fixpoint lookup (k : string) (m : Mapping) : option group_value :=
  match m with
  | [] => None
  | (k', v) :: m' => if k =? k' then Some v else lookup k m'
  end.

(** [d.get(name)] on one object. *)
Fixpoint field (name : string) (d : dict) : option cell :=
  match d with
  | [] => None
  | (n, v) :: d' => if name =? n then Some v else field name d'
  end.

Definition members (v : group_value) : list dict :=
  match v with
  | Single d => [d]
  | Many ds => ds
  end.

(** The summary count of step 4: one per bare object, [len] per list. *)
Definition total (m : Mapping) : nat :=
  list_sum (map (fun kv => List.length (members (snd kv))) m).

(** Flattening: every stored object, paired with the key it is stored under. *)
Definition flatten (m : Mapping) : list (string * dict) :=
  flat_map (fun kv => map (pair (fst kv)) (members (snd kv))) m.

(** The flat record a stored object stands for: the key is its
    appeals case number, the other four fields are read from the object. *)
Definition cell_or_nan (o : option cell) : cell :=
  match o with Some c => c | None => NaN end.

Definition record_of_entry (e : string * dict) : Row :=
  let '(k, d) := e in
  mkRow (cell_or_nan (field "supreme_case_number" d))
        (cell_or_nan (field "supreme_case_link" d))
        (Str k)
        (cell_or_nan (field "appeals_case_link" d))
        (cell_or_nan (field "source_type" d)).

End Lookup.

(* ===================================================================== *)
(** ** get_new_verdicts.py *)
(* ===================================================================== *)

Module GetNewVerdicts.
Import Py Pandas Lookup.

(** What [requests.get] returns when it does not raise. *)
Record response : Type := Response {
  status_code : Z;
  text : string
}.

(** The outside world and the library calls that parse it. *)
Record Env : Type := mkEnv {
  (** [requests.get(url, headers=HEADERS, timeout=30)] *)
  requests_get : string -> result response;
  (** [[a["href"] for a in BeautifulSoup(t, "html.parser").find_all("a", href=True)]] *)
  find_all_a_href : string -> list string;
  (** [urljoin(base, href)] *)
  urljoin : string -> string -> string;
  (** [urlparse(url).netloc.lower()] *)
  netloc_lower : string -> string;
  (** [SUPREME_RE.findall(html)] *)
  SUPREME_RE_findall : string -> list string;
  (** [APPEALS_URL_RE.search(html)], as the matched text *)
  APPEALS_URL_RE_search : string -> option string;
  (** [APPEALS_NO_RE.findall(page)]: the (num, year) pairs *)
  APPEALS_NO_RE_findall : string -> list (string * string);
  (** [int(year)] *)
  int : string -> Z
}.

(** [resp.raise_for_status()]: 4xx and 5xx raise. *)
Definition raise_for_status (resp : response) : result unit :=
  if ((400 <=? status_code resp)%Z && (status_code resp <? 600)%Z)%bool
  then Raise else Ok tt.

(** The [for num, year in ...] loop of [appeals_case_number]. *)
Fixpoint first_since_2018 (E : Env) (matches : list (string * string)) : string :=
  match matches with
  | [] => ""
  | (num, year) :: rest =>
      if (2018 <=? int E year)%Z then num ++ "/" ++ year
      else first_since_2018 E rest
  end.

Definition appeals_case_number (E : Env) (url : string) : result string :=
  match requests_get E url with
  | Raise => Ok ""
  | Ok resp => Ok (first_since_2018 E (APPEALS_NO_RE_findall E (text resp)))
  end.

Definition first_appeals_link (E : Env) (html : string) : string :=
  match APPEALS_URL_RE_search E html with
  | Some m => m
  | None => ""
  end.

Definition scrape_supreme (E : Env) (url : string)
  : result (string * string * string * string) :=
  resp <- requests_get E url ;;
  let html := text resp in
  let sup_no :=
    match SUPREME_RE_findall E html with
    | m :: _ => m
    | [] => ""
    end in
  let app_link := first_appeals_link E html in
  if truthy app_link then
    let dom := netloc_lower E app_link in
    if ((dom =? "landsrettur.is") || endswith dom ".landsrettur.is")%bool then
      app_no <- appeals_case_number E app_link ;;
      Ok (sup_no, url, app_no, app_link)
    else
      Ok (sup_no, url, "", "")
  else
    Ok (sup_no, url, "", app_link).

Definition base : string := "https://www.haestirettur.is".

Definition get_verdict_links (E : Env) : result (list string) :=
  let list_page := base ++ "/domar/" in
  resp <- requests_get E list_page ;;
  _ <- raise_for_status resp ;;
  let hrefs := find_all_a_href E (text resp) in
  let links :=
    set (map (urljoin E base)
             (filter (fun href => startswith href "/domar/_domur/") hrefs)) in
  Ok (sorted links).

Definition get_decision_links (E : Env) : result (list string) :=
  let list_page := base ++ "/akvardanir/" in
  resp <- requests_get E list_page ;;
  _ <- raise_for_status resp ;;
  let hrefs := find_all_a_href E (text resp) in
  let links :=
    set (map (urljoin E base)
             (filter (fun href => (startswith href "/akvardanir/"
                                   && negb (href =? "/akvardanir/"))%bool)
                     hrefs)) in
  Ok (sorted links).

(** *** [main], the scraping half (lines 111-125) *)

Definition scrape_as (E : Env) (kind : string) (url : string) : result tuple5 :=
  t <- scrape_supreme E url ;;
  Ok (t, kind).

Definition scrape_all (E : Env) : result (list tuple5) :=
  verdict_links <- get_verdict_links E ;;
  verdict_rows <- for_each (scrape_as E "dóm") verdict_links ;;
  decision_links <- get_decision_links E ;;
  decision_rows <- for_each (scrape_as E "ákvörðun") decision_links ;;
  Ok (verdict_rows ++ decision_rows)%list.

(** *** [main], the merge (lines 127-135) *)

(** The mask [df_new["appeals_case_number"].str.strip().astype(bool)]. *)
Definition has_appeals_case (r : Row) : bool :=
  astype_bool (str_strip (get Pandas.appeals_case_number r)).

Definition merge (df_existing : DataFrame) (all_rows : list tuple5) : DataFrame :=
  let df_new := DataFrame_of all_rows in
  let df_new := select has_appeals_case df_new in
  let df_combined := concat [df_existing; df_new] in
  drop_duplicates supreme_case_number df_combined.

(** *** [main], the lookup (lines 143-161) *)

(** Step 1: read the file back, blank the missing appeals links, strip every
    column. *)
Definition blank_missing_link (r : Row) : Row :=
  if isnull (get appeals_case_link r)
  then update appeals_case_link (fun _ => Str "") r
  else r.

Definition reload (f : Csv) : DataFrame :=
  let df := read_csv f in
  let df := map blank_missing_link df in
  fold_left (fun df col => map (update col str_strip) df) cols df.

(** Step 2: the dict comprehension over [df.groupby("appeals_case_number")]. *)
Definition group_entry (appeals_num : string) (group : DataFrame)
  : string * group_value :=
  let records := to_dict_records (drop Pandas.appeals_case_number cols) group in
  (appeals_num,
   if (List.length group =? 1)%nat then Single (nth 0 records []) else Many records).

Definition build_mapping (df : DataFrame) : Mapping :=
  map (fun kg => group_entry (fst kg) (snd kg)) (groupby Pandas.appeals_case_number df).

(** *** [main] as a whole *)

(** The two files under [data/]; [None] is a file that does not exist. *)
Record Files : Type := mkFiles {
  csv_file : option Csv;
  json_file : option Mapping
}.

(** Everything [main] does once the rows are scraped. *)
Definition pipeline (existing : option Csv) (all_rows : list tuple5)
  : Csv * Mapping :=
  let df_existing :=
    match existing with
    | Some f => read_csv f
    | None => []
    end in
  let df_combined := merge df_existing all_rows in
  let csv := to_csv df_combined in
  (csv, build_mapping (reload csv)).

Definition main (E : Env) (fs : Files) : result Files :=
  all_rows <- scrape_all E ;;
  let out := pipeline (csv_file fs) all_rows in
  Ok (mkFiles (Some (fst out)) (Some (snd out))).

(** The files after a run: an exception leaves them as they were. *)
Definition run (E : Env) (fs : Files) : Files :=
  match main E fs with
  | Ok fs' => fs'
  | Raise => fs
  end.

End GetNewVerdicts.

(* ===================================================================== *)
(** ** csv_to_json.py *)
(* ===================================================================== *)

Module CsvToJson.
Import Py Pandas Lookup.

(** The dict appended for one [csv.DictReader] row. *)
Definition record_of (row : CsvRow) : dict :=
  [("appeals_case_number", Str (strip (f_app_no row)));
   ("supreme_case_number", Str (strip (f_sup_no row)));
   ("supreme_case_link", Str (strip (f_sup_link row)));
   ("appeals_case_link", Str (strip (f_app_link row)));
   ("source_type", Str (strip (f_src_type row)))].

(** [grouped[k].append(d)] on a [defaultdict(list)]. *)
Fixpoint append_to (k : string) (d : dict) (grouped : list (string * list dict))
  : list (string * list dict) :=
  match grouped with
  | [] => [(k, [d])]
  | (k', ds) :: rest =>
      if k =? k' then (k', (ds ++ [d])%list) :: rest
      else (k', ds) :: append_to k d rest
  end.

Definition grouped (f : Csv) : list (string * list dict) :=
  fold_left (fun g row => append_to (strip (f_app_no row)) (record_of row) g) f [].

Definition collapse (kv : string * list dict) : string * group_value :=
  (fst kv, if (List.length (snd kv) =? 1)%nat then Single (nth 0 (snd kv) []) else Many (snd kv)).

Definition mapping (f : Csv) : Mapping := map collapse (grouped f).

End CsvToJson.

(* ===================================================================== *)
(** ** Vocabulary of the specification *)
(* ===================================================================== *)

Module Spec.
Import Py Pandas Lookup.

(** A cell holds a non-empty identifier: it is a string with something
    other than whitespace in it. *)
Definition nonblank (c : cell) : bool :=
  match c with
  | NaN => false
  | Str s => truthy (strip s)
  end.

(** A string is whitespace-trimmed. *)
Definition trimmed (s : string) : Prop := strip s = s.

Definition trimmed_cell (c : cell) : Prop :=
  match c with
  | NaN => True
  | Str s => trimmed s
  end.

Definition trimmed_row (r : Row) : Prop :=
  Forall (fun c => trimmed_cell (get c r)) cols.

Definition trimmed_line (l : CsvRow) : Prop :=
  trimmed (f_sup_no l) /\ trimmed (f_sup_link l) /\ trimmed (f_app_no l) /\
  trimmed (f_app_link l) /\ trimmed (f_src_type l).

Definition trimmed_dict (d : dict) : Prop :=
  Forall (fun nv => trimmed_cell (snd nv)) d.

Definition trimmed_mapping (m : Mapping) : Prop :=
  Forall (fun kv => trimmed (fst kv) /\ Forall trimmed_dict (members (snd kv))) m.

(** A row with every cell stripped. *)
Definition strip_row (r : Row) : Row :=
  mkRow (str_strip (sup_no r)) (str_strip (sup_link r)) (str_strip (app_no r))
        (str_strip (app_link r)) (str_strip (src_type r)).

(** The rows of a frame that carry the key [k] in column [c]. *)
Definition with_key (c : column) (k : cell) (df : DataFrame) : DataFrame :=
  filter (fun r => cell_eqb (get c r) k) df.

(** The field names of an object, in order. *)
Definition field_names (d : dict) : list string := map fst d.

Definition four_fields : list string :=
  ["supreme_case_number"; "supreme_case_link"; "appeals_case_link"; "source_type"].

(** The (key, object) pair under which the inline builder files a row. *)
Definition entry_of_row (r : Row) : string * dict :=
  (write_cell (app_no r),
   [("supreme_case_number", sup_no r); ("supreme_case_link", sup_link r);
    ("appeals_case_link", app_link r); ("source_type", src_type r)]).

(** The lexicographic order of Python's [sorted] on strings. *)
Definition lex_le (s t : string) : Prop := String.leb s t = true.

(** The rows of a file that the converter files under the key [k]. *)
Definition lines_with_key (k : string) (f : Csv) : Csv :=
  filter (fun l => strip (f_app_no l) =? k) f.

(** [grouped.get(k)] on the converter's intermediate dict. *)
Fixpoint assoc (k : string) (g : list (string * list dict)) : option (list dict) :=
  match g with
  | [] => None
  | (k', ds) :: rest => if k =? k' then Some ds else assoc k rest
  end.

(** The list found under a key after more objects were appended to it. *)
Definition extended (o : option (list dict)) (more : list dict) : option (list dict) :=
  match o, more with
  | None, [] => None
  | None, _ => Some more
  | Some ds, _ => Some (ds ++ more)%list
  end.

(** All (key, object) pairs of the converter's intermediate dict. *)
Definition pairs_of (g : list (string * list dict)) : list (string * dict) :=
  flat_map (fun kv => map (pair (fst kv)) (snd kv)) g.

(** The (key, object) pair under which the converter files a line. *)
Definition entry_of_line (l : CsvRow) : string * dict :=
  (strip (f_app_no l), CsvToJson.record_of l).

(** A group stored the collapsed way. *)
Definition collapsed (ds : list dict) : group_value :=
  if (List.length ds =? 1)%nat then Single (nth 0 ds []) else Many ds.

(** The hrefs of the anchors of the page at [url], in document order. *)
Definition listing_hrefs (E : GetNewVerdicts.Env) (url : string) : list string :=
  match GetNewVerdicts.requests_get E url with
  | Ok resp => GetNewVerdicts.find_all_a_href E (GetNewVerdicts.text resp)
  | Raise => []
  end.

(** The line [to_csv] writes for a row, and the row [read_csv] reads from a
    line. *)
Definition line_of (r : Row) : CsvRow :=
  mkCsv (write_cell (sup_no r)) (write_cell (sup_link r)) (write_cell (app_no r))
        (write_cell (app_link r)) (write_cell (src_type r)).

Definition row_of_line (l : CsvRow) : Row :=
  mkRow (read_cell (f_sup_no l)) (read_cell (f_sup_link l)) (read_cell (f_app_no l))
        (read_cell (f_app_link l)) (read_cell (f_src_type l)).

(** A cell that is written and read back as itself. *)
Definition reads_back (c : cell) : Prop := read_cell (write_cell c) = c.

(** A cell that is written the same way after having been read back. *)
Definition rewrites (c : cell) : Prop :=
  write_cell (read_cell (write_cell c)) = write_cell c.

(** A row the record file holds faithfully: its supreme case number is
    read back as itself, and a second write of the row gives the same line. *)
Definition settled (r : Row) : Prop :=
  reads_back (sup_no r) /\ rewrites (sup_link r) /\ rewrites (app_no r)
  /\ rewrites (app_link r) /\ rewrites (src_type r).

(** The third component of a scraped tuple. *)
Definition tuple_app_no (t : tuple5) : string :=
  let '(_, _, c, _, _) := t in c.


End Spec.

(* ===================================================================== *)
(** ** Concrete records and pages used by the examples *)
(* ===================================================================== *)

Module Examples.
Import Py Pandas Lookup GetNewVerdicts.

Definition detail_a1 : string := "https://www.haestirettur.is/domar/_domur/?id=a1".
Definition detail_a2 : string := "https://www.haestirettur.is/domar/_domur/?id=a2".
Definition appeals_x : string :=
  "https://landsrettur.is/domar-og-urskurdir/domur-urskurdur/?id=x".
Definition appeals_y : string :=
  "https://landsrettur.is/domar-og-urskurdir/domur-urskurdur/?id=y".

(** A record already in the store, and a fresh scrape of the same case that
    resolved a different appeals number. *)
Definition stored_2024_10 : Row :=
  mkRow (Str "2024-10") (Str detail_a1) (Str "12/2020") (Str appeals_x) (Str "dóm").

Definition scraped_2024_10 : tuple5 :=
  ("2024-10", detail_a1, "7/2021", appeals_y, "dóm").

Definition scraped_2024_11 : tuple5 :=
  ("2024-11", detail_a2, "8/2021", appeals_y, "dóm").

(** A scrape that found no appeals link. *)
Definition scraped_unresolved : tuple5 :=
  ("2024-12", detail_a2, "", "", "dóm").

(** A stored line whose appeals fields are empty. *)
Definition line_without_appeals : CsvRow :=
  mkCsv "2019-3" detail_a2 "" "" "dóm".

(** Two detail pages on which no supreme case number was found, both with a
    resolved appeals number. *)
Definition scraped_nameless_1 : tuple5 := ("", detail_a1, "12/2020", appeals_x, "dóm").
Definition scraped_nameless_2 : tuple5 := ("", detail_a2, "7/2021", appeals_y, "dóm").

(** A stored line with a stray trailing blank in its case number. *)
Definition line_padded : CsvRow :=
  mkCsv "2024-10 " detail_a1 "12/2020" appeals_x "dóm".

(** A frame in which two records share an appeals case number and one has
    none. *)
Definition scraped_2024_13 : tuple5 :=
  ("2024-13", detail_a2, "7/2021", appeals_y, "ákvörðun").

Definition shared_frame : DataFrame :=
  [stored_2024_10; row_of_tuple scraped_2024_10; row_of_tuple scraped_2024_13;
   mkRow (Str "2019-3") (Str detail_a2) NaN (Str "") (Str "dóm")].

(** *** A small web for running the scraper

    Pages are given by URL; a URL without a page is a connection that
    fails.  What the parsers find is tabulated by page text. *)

Definition table_get {A : Type} (default : A) (k : string) (table : list (string * A)) : A :=
  match find (fun kv => k =? fst kv) table with
  | Some kv => snd kv
  | None => default
  end.

Fixpoint decimal (acc : Z) (s : string) : Z :=
  match s with
  | EmptyString => acc
  | String c s' => decimal (10 * acc + (Z.of_nat (nat_of_ascii c) - 48)) s'
  end.

Definition verdict_listing : string := "https://www.haestirettur.is/domar/".
Definition decision_listing : string := "https://www.haestirettur.is/akvardanir/".

Definition toy_env (pages : list (string * string)) : Env :=
  mkEnv
    (fun url =>
       match find (fun kv => url =? fst kv) pages with
       | Some kv => Ok (Response 200 (snd kv))
       | None => Raise
       end)
    (fun t => table_get [] t
       [("verdict listing", ["/domar/_domur/?id=a2"; "/domar/"; "/domar/_domur/?id=a1";
                             "/um-rettinn/"; "/domar/_domur/?id=a2"]);
        ("verdict listing with root", ["/domar/_domur/"]);
        ("decision listing", ["/akvardanir/"; "/akvardanir/?id=b1"])])
    (fun b href => (b ++ href)%string)
    (fun url => if startswith url "https://landsrettur.is/" then "landsrettur.is" else "")
    (fun t => table_get [] t
       [("detail a1", ["2024-10"; "2023-7"]); ("detail a2", ["2024-11"]);
        ("detail b1", ["2024-12"])])
    (fun t => table_get None t
       [("detail a1", Some appeals_x); ("detail b1", Some appeals_y)])
    (fun t => table_get [] t
       [("appeals x", [("3", "2017"); ("12", "2020"); ("5", "2021")]);
        ("appeals y", [("44", "2012")])])
    (decimal 0).

(** Everything answers. *)
Definition web_up : Env :=
  toy_env [(verdict_listing, "verdict listing"); (decision_listing, "decision listing");
           (detail_a1, "detail a1"); (detail_a2, "detail a2");
           ("https://www.haestirettur.is/akvardanir/?id=b1", "detail b1");
           (appeals_x, "appeals x"); (appeals_y, "appeals y")].

(** The appeals court does not answer. *)
Definition web_appeals_down : Env :=
  toy_env [(verdict_listing, "verdict listing"); (decision_listing, "decision listing");
           (detail_a1, "detail a1"); (detail_a2, "detail a2");
           ("https://www.haestirettur.is/akvardanir/?id=b1", "detail b1")].

(** One detail page does not answer. *)
Definition web_detail_down : Env :=
  toy_env [(verdict_listing, "verdict listing"); (decision_listing, "decision listing");
           (detail_a2, "detail a2");
           ("https://www.haestirettur.is/akvardanir/?id=b1", "detail b1");
           (appeals_x, "appeals x"); (appeals_y, "appeals y")].

(** The verdict listing links to the bare detail prefix. *)
Definition web_with_prefix_root : Env :=
  toy_env [(verdict_listing, "verdict listing with root");
           (decision_listing, "decision listing")].

Definition no_files : Files := mkFiles None None.

End Examples.


(* ===================================================================== *)
(** ** Vocabulary for the properties of the rest of the code *)
(* ===================================================================== *)

Module More.
Import Py Pandas Lookup GetNewVerdicts Spec.

(** The second and the fifth component of a scraped tuple. *)
Definition tuple_sup_link (t : tuple5) : string :=
  let '(_, b, _, _, _) := t in b.

Definition tuple_kind (t : tuple5) : string :=
  let '(_, _, _, _, e) := t in e.

(** The host test of [scrape_supreme] (line 56). *)
Definition accepted_domain (E : Env) (link : string) : bool :=
  (netloc_lower E link =? "landsrettur.is")
  || endswith (netloc_lower E link) ".landsrettur.is".

(** A (num, year) match that the year cutoff of line 31 skips. *)
Definition before_cutoff (E : Env) (m : string * string) : Prop :=
  (int E (snd m) < 2018)%Z.

(** The fetch of a listing page raises, in [requests.get] or in
    [raise_for_status]. *)
Definition listing_fails (E : Env) (url : string) : Prop :=
  requests_get E url = Raise
  \/ exists resp : response,
       requests_get E url = Ok resp
       /\ (400 <= status_code resp < 600)%Z.

(** The distinct elements of a list, in the order of their first
    occurrence. *)
Fixpoint first_seen_from (seen : list string) (l : list string) : list string :=
  match l with
  | [] => []
  | k :: l' =>
      if existsb (String.eqb k) seen then first_seen_from seen l'
      else k :: first_seen_from (k :: seen) l'
  end.

Definition first_seen (l : list string) : list string := first_seen_from [] l.

(** An object without one of its fields, and a stored value with a function
    applied to each of its objects. *)
Definition without_field (name : string) (d : dict) : dict :=
  filter (fun nv => negb (fst nv =? name)) d.

Definition map_members (g : dict -> dict) (v : group_value) : group_value :=
  match v with
  | Single d => Single (g d)
  | Many ds => Many (map g ds)
  end.



(** A line on which the two lookup builders see the same values: nothing is
    read as missing, except possibly an empty appeals link. *)
Definition plain_line (l : CsvRow) : Prop :=
  is_na (f_sup_no l) = false /\ is_na (f_sup_link l) = false
  /\ is_na (f_app_no l) = false
  /\ (is_na (f_app_link l) = false \/ f_app_link l = "")
  /\ is_na (f_src_type l) = false.

(** The row that the reload of step 1 makes of a plain line. *)
Definition stripped_row_of_line (l : CsvRow) : Row :=
  mkRow (Str (strip (f_sup_no l))) (Str (strip (f_sup_link l)))
        (Str (strip (f_app_no l))) (Str (strip (f_app_link l)))
        (Str (strip (f_src_type l))).

(** The lines of the record file a run starts from. *)
Definition stored_lines (existing : option Csv) : Csv :=
  match existing with
  | Some f => f
  | None => []
  end.

(** A line whose appeals field is not a run of whitespace: it is read as
    missing, or something is left of it after stripping. *)
Definition number_or_nothing (l : CsvRow) : Prop :=
  is_na (f_app_no l) = true \/ strip (f_app_no l) <> "".

(** The text of a field of a stored object; a field that is absent or
    missing reads as the empty text. *)
Definition text_of (o : option cell) : string := write_cell (cell_or_nan o).

(** The line of the record file that a stored object of the converter
    stands for, read from the object field by field. *)
Definition line_of_object (d : dict) : CsvRow :=
  mkCsv (text_of (field "supreme_case_number" d))
        (text_of (field "supreme_case_link" d))
        (text_of (field "appeals_case_number" d))
        (text_of (field "appeals_case_link" d))
        (text_of (field "source_type" d)).

(** A line with every field stripped. *)
Definition stripped_line (l : CsvRow) : CsvRow :=
  mkCsv (strip (f_sup_no l)) (strip (f_sup_link l)) (strip (f_app_no l))
        (strip (f_app_link l)) (strip (f_src_type l)).

(** A text without a carriage return.  [to_csv] quotes a field that holds a
    comma, a quote or a line feed, but writes a bare carriage return as it
    is, and [read_csv] then ends the line there; only for fields without one
    is the file read back field by field as it was written. *)
Definition no_cr (s : string) : Prop :=
  existsb (Ascii.eqb (ascii_of_nat 13)) (list_ascii_of_string s) = false.

Definition no_cr_line (l : CsvRow) : Prop :=
  no_cr (f_sup_no l) /\ no_cr (f_sup_link l) /\ no_cr (f_app_no l)
  /\ no_cr (f_app_link l) /\ no_cr (f_src_type l).

Definition no_cr_tuple (t : tuple5) : Prop :=
  let '(a, b, c, d, e) := t in
  no_cr a /\ no_cr b /\ no_cr c /\ no_cr d /\ no_cr e.

(** A record file in which the appeals number of one case has a leading
    blank. *)
Definition padded_file : Csv :=
  [mkCsv "2024-10" Examples.detail_a1 " 12/2020" Examples.appeals_x "dóm";
   mkCsv "2024-13" Examples.detail_a2 "12/2020" Examples.appeals_x "ákvörðun"].

(** A stored line whose appeals number is padded with a no-break space
    and an ideographic space. *)
Definition padded_nbsp_line : CsvRow :=
  mkCsv "2023-5" Examples.detail_a2 " 33/2019　" Examples.appeals_y "dóm".

(** The line a run leaves for a detail page without a supreme case number. *)
Definition line_nameless : CsvRow :=
  mkCsv "" Examples.detail_a1 "12/2020" Examples.appeals_x "dóm".


(** The web of the examples with the decisions listing answering 503. *)
Definition web_decisions_503 : Env :=
  mkEnv
    (fun url =>
       if url =? Examples.decision_listing
       then Ok (Response 503 "Service Unavailable")
       else requests_get Examples.web_up url)
    (find_all_a_href Examples.web_up)
    (urljoin Examples.web_up)
    (netloc_lower Examples.web_up)
    (SUPREME_RE_findall Examples.web_up)
    (APPEALS_URL_RE_search Examples.web_up)
    (APPEALS_NO_RE_findall Examples.web_up)
    (int Examples.web_up).

(** A record file with two cases under one appeals number and one case
    without an appeals link. *)
Definition plain_file : Csv :=
  [mkCsv "2024-10" Examples.detail_a1 " 12/2020" Examples.appeals_x "dóm";
   mkCsv "2024-11" Examples.detail_a2 "7/2021" "" "dóm";
   mkCsv "2024-13" Examples.detail_a2 "12/2020 " Examples.appeals_x "ákvörðun"].

End More.

(* ===================================================================== *)
(** ** Facts about cells and [drop_duplicates] *)
(* ===================================================================== *)

Import Py Pandas Lookup Spec GetNewVerdicts More.
Open Scope list_scope.

Lemma cell_eqb_eq (a b : cell) : cell_eqb a b = true <-> a = b.
Proof.
  destruct a as [|s], b as [|t]; simpl; split; intro H;
    try reflexivity; try discriminate.
  - apply String.eqb_eq in H. now subst.
  - inversion H. apply String.eqb_refl.
Qed.

Lemma cell_eqb_refl (a : cell) : cell_eqb a a = true.
Proof. now apply cell_eqb_eq. Qed.

Lemma cell_eqb_neq (a b : cell) : cell_eqb a b = false <-> a <> b.
Proof.
  rewrite <- cell_eqb_eq. destruct (cell_eqb a b); split; congruence.
Qed.

Lemma seen_iff (k : cell) (seen : list cell) :
  existsb (cell_eqb k) seen = true <-> In k seen.
Proof.
  rewrite existsb_exists. split.
  - intros (x & Hin & Heq). apply cell_eqb_eq in Heq. now subst.
  - intro Hin. exists k. split; [assumption | apply cell_eqb_refl].
Qed.

Lemma seen_same (k : cell) (s1 s2 : list cell) :
  (forall x, In x s1 <-> In x s2) ->
  existsb (cell_eqb k) s1 = existsb (cell_eqb k) s2.
Proof.
  intro H. apply eq_true_iff_eq. rewrite !seen_iff. apply H.
Qed.

Section DropDuplicates.

Variable c : column.

Lemma ddf_same_seen (df : DataFrame) :
  forall s1 s2, (forall x, In x s1 <-> In x s2) ->
  drop_duplicates_from s1 c df = drop_duplicates_from s2 c df.
Proof.
  induction df as [|r rest IH]; intros s1 s2 H; simpl; [reflexivity|].
  rewrite (seen_same (get c r) s1 s2 H).
  destruct (existsb (cell_eqb (get c r)) s2).
  - now apply IH.
  - f_equal. apply IH. intro x. simpl. rewrite H. tauto.
Qed.

Lemma ddf_app (l1 l2 : DataFrame) :
  forall seen,
  drop_duplicates_from seen c (l1 ++ l2)
  = drop_duplicates_from seen c l1
    ++ drop_duplicates_from (map (get c) l1 ++ seen) c l2.
Proof.
  induction l1 as [|r l1 IH]; intro seen; simpl; [reflexivity|].
  destruct (existsb (cell_eqb (get c r)) seen) eqn:Hr.
  - rewrite IH. f_equal. apply ddf_same_seen.
    apply seen_iff in Hr. intro x. simpl. rewrite !in_app_iff.
    split; [tauto|]. intros [Hx|[Hx|Hx]]; subst; tauto.
  - simpl. f_equal. rewrite IH. f_equal. apply ddf_same_seen.
    intro x. simpl. rewrite !in_app_iff. simpl. tauto.
Qed.

Lemma ddf_as_filter (df : DataFrame) :
  forall s1 s2,
  drop_duplicates_from (s1 ++ s2) c df
  = filter (fun r => negb (existsb (cell_eqb (get c r)) s1))
           (drop_duplicates_from s2 c df).
Proof.
  induction df as [|r rest IH]; intros s1 s2; simpl; [reflexivity|].
  rewrite existsb_app.
  destruct (existsb (cell_eqb (get c r)) s2) eqn:H2.
  - rewrite orb_true_r. apply IH.
  - rewrite orb_false_r. simpl.
    destruct (existsb (cell_eqb (get c r)) s1) eqn:H1; simpl.
    + rewrite <- IH. apply ddf_same_seen.
      apply seen_iff in H1. intro x. rewrite !in_app_iff. simpl.
      split; [tauto|]. intros [Hx|[Hx|Hx]]; subst; tauto.
    + f_equal. rewrite <- IH. apply ddf_same_seen.
      intro x. simpl. rewrite !in_app_iff. simpl. tauto.
Qed.

(** Deduplicating a concatenation: the first part is deduplicated on its
    own, and of the second part only the keys new to the first survive. *)
Lemma drop_duplicates_app (l1 l2 : DataFrame) :
  drop_duplicates c (l1 ++ l2)
  = drop_duplicates c l1
    ++ filter (fun r => negb (existsb (cell_eqb (get c r)) (map (get c) l1)))
              (drop_duplicates c l2).
Proof.
  unfold drop_duplicates. rewrite ddf_app. f_equal.
  rewrite <- (ddf_as_filter l2 (map (get c) l1) []).
  reflexivity.
Qed.

Lemma ddf_In (df : DataFrame) :
  forall seen r, In r (drop_duplicates_from seen c df) ->
  In r df /\ ~ In (get c r) seen.
Proof.
  induction df as [|x rest IH]; intros seen r; simpl; [tauto|].
  destruct (existsb (cell_eqb (get c x)) seen) eqn:Hx.
  - intro H. apply IH in H. tauto.
  - intros [H|H].
    + subst. split; [now left|]. rewrite <- seen_iff. congruence.
    + apply IH in H. simpl in H. tauto.
Qed.

Lemma drop_duplicates_In (df : DataFrame) (r : Row) :
  In r (drop_duplicates c df) -> In r df.
Proof. intro H. now apply ddf_In in H. Qed.

Lemma ddf_NoDup (df : DataFrame) :
  forall seen, NoDup (map (get c) (drop_duplicates_from seen c df)).
Proof.
  induction df as [|x rest IH]; intro seen; simpl; [constructor|].
  destruct (existsb (cell_eqb (get c x)) seen); [apply IH|].
  simpl. constructor; [|apply IH].
  rewrite in_map_iff. intros (y & Hk & Hy).
  apply ddf_In in Hy. destruct Hy as [_ Hy]. apply Hy. left. now symmetry.
Qed.

Lemma ddf_find (k : cell) (df : DataFrame) :
  forall seen, ~ In k seen ->
  find (fun r => cell_eqb (get c r) k) (drop_duplicates_from seen c df)
  = find (fun r => cell_eqb (get c r) k) df.
Proof.
  induction df as [|x rest IH]; intros seen Hk; simpl; [reflexivity|].
  destruct (existsb (cell_eqb (get c x)) seen) eqn:Hx.
  - apply seen_iff in Hx.
    destruct (cell_eqb (get c x) k) eqn:Hxk.
    + apply cell_eqb_eq in Hxk. congruence.
    + now apply IH.
  - simpl. destruct (cell_eqb (get c x) k) eqn:Hxk; [reflexivity|].
    apply IH. apply cell_eqb_neq in Hxk. intros [Hin|Hin]; [congruence | now apply Hk].
Qed.

Lemma ddf_with_key (k : cell) (df : DataFrame) :
  forall seen,
  with_key c k (drop_duplicates_from seen c df)
  = if existsb (cell_eqb k) seen then [] else firstn 1 (with_key c k df).
Proof.
  unfold with_key.
  induction df as [|x rest IH]; intro seen; simpl.
  - now destruct (existsb (cell_eqb k) seen).
  - destruct (existsb (cell_eqb (get c x)) seen) eqn:Hx.
    + rewrite IH. destruct (cell_eqb (get c x) k) eqn:Hxk; [|reflexivity].
      apply cell_eqb_eq in Hxk. subst. now rewrite Hx.
    + simpl. rewrite IH. simpl.
      destruct (cell_eqb (get c x) k) eqn:Hxk.
      * apply cell_eqb_eq in Hxk. subst. rewrite Hx, cell_eqb_refl. reflexivity.
      * assert (cell_eqb k (get c x) = false) as ->.
        { apply cell_eqb_neq. apply cell_eqb_neq in Hxk. congruence. }
        reflexivity.
Qed.

Lemma ddf_fixed (df : DataFrame) :
  forall seen, NoDup (map (get c) df) ->
  (forall r, In r df -> ~ In (get c r) seen) ->
  drop_duplicates_from seen c df = df.
Proof.
  induction df as [|x rest IH]; intros seen Hnd Hs; simpl; [reflexivity|].
  inversion Hnd as [|? ? Hx Hrest]; subst.
  destruct (existsb (cell_eqb (get c x)) seen) eqn:Hsx.
  - apply seen_iff in Hsx. exfalso. apply (Hs x); [now left | assumption].
  - f_equal. apply IH; [assumption|].
    intros r Hr [Hk|Hk].
    + apply Hx. rewrite Hk. now apply in_map.
    + apply (Hs r); [now right | assumption].
Qed.

Lemma drop_duplicates_fixed (df : DataFrame) :
  NoDup (map (get c) df) -> drop_duplicates c df = df.
Proof. intro H. apply ddf_fixed; [assumption | intros; simpl; tauto]. Qed.

End DropDuplicates.

(* ===================================================================== *)
(** ** Facts about [sorted] and [set] *)
(* ===================================================================== *)

Lemma string_compare_spec (s t : string) :
  CompSpec eq String_as_OT.lt s t (String.compare s t).
Proof. exact (String_as_OT.compare_spec s t). Qed.

Lemma lex_le_trans (a b c : string) : lex_le a b -> lex_le b c -> lex_le a c.
Proof.
  assert (Hirr : forall x, String_as_OT.lt x x -> False)
    by apply (@RelationClasses.StrictOrder_Irreflexive _ _ String_as_OT.lt_strorder).
  assert (Htr : forall x y z, String_as_OT.lt x y -> String_as_OT.lt y z ->
                              String_as_OT.lt x z)
    by apply (@RelationClasses.StrictOrder_Transitive _ _ String_as_OT.lt_strorder).
  unfold lex_le, String.leb.
  destruct (string_compare_spec a b) as [Hab|Hab|Hab];
    destruct (string_compare_spec b c) as [Hbc|Hbc|Hbc];
    destruct (string_compare_spec a c) as [Hac|Hac|Hac];
    intros H1 H2; try discriminate; try reflexivity; exfalso;
    subst; eauto.
Qed.

Lemma lex_le_total (a b : string) : String.leb a b = false -> lex_le b a.
Proof.
  intro H. destruct (String.leb_total a b) as [Hab|Hba]; [congruence | exact Hba].
Qed.

Lemma insort_perm (x : string) (l : list string) :
  Permutation (insort x l) (x :: l).
Proof.
  induction l as [|y l IH]; simpl; [reflexivity|].
  destruct (String.leb x y); [reflexivity|].
  rewrite IH. apply perm_swap.
Qed.

Lemma sorted_perm (l : list string) : Permutation (sorted l) l.
Proof.
  induction l as [|x l IH]; simpl; [reflexivity|].
  rewrite insort_perm. now constructor.
Qed.

Lemma sorted_In (l : list string) (x : string) : In x (sorted l) <-> In x l.
Proof.
  split; apply Permutation_in; [|symmetry]; apply sorted_perm.
Qed.

Lemma sorted_NoDup (l : list string) : NoDup l -> NoDup (sorted l).
Proof.
  apply Permutation_NoDup. symmetry. apply sorted_perm.
Qed.

Lemma insort_HdRel (y x : string) (l : list string) :
  HdRel lex_le y l -> lex_le y x -> HdRel lex_le y (insort x l).
Proof.
  intros Hl Hyx. destruct l as [|z l]; simpl; [now constructor|].
  destruct (String.leb x z); constructor; [assumption|].
  now inversion Hl.
Qed.

Lemma insort_Sorted (x : string) (l : list string) :
  Sorted lex_le l -> Sorted lex_le (insort x l).
Proof.
  induction l as [|y l IH]; intro Hs; simpl.
  - repeat constructor.
  - destruct (String.leb x y) eqn:Hxy.
    + constructor; [assumption|]. now constructor.
    + inversion Hs as [|? ? Hl Hhd]; subst.
      constructor; [now apply IH|].
      apply insort_HdRel; [assumption | now apply lex_le_total].
Qed.

Lemma sorted_Sorted (l : list string) : Sorted lex_le (sorted l).
Proof.
  induction l as [|x l IH]; simpl; [constructor | now apply insort_Sorted].
Qed.

Lemma sorted_StronglySorted (l : list string) : StronglySorted lex_le (sorted l).
Proof.
  apply Sorted_StronglySorted; [|apply sorted_Sorted].
  intros a b c. apply lex_le_trans.
Qed.

(** Two sorted lists with the same elements are the same list. *)
Lemma StronglySorted_unique (l1 : list string) :
  forall l2, StronglySorted lex_le l1 -> StronglySorted lex_le l2 ->
  Permutation l1 l2 -> l1 = l2.
Proof.
  induction l1 as [|x l1 IH]; intros l2 H1 H2 Hp.
  - apply Permutation_nil in Hp. now subst.
  - destruct l2 as [|y l2].
    + symmetry in Hp. apply Permutation_nil in Hp. discriminate.
    + apply StronglySorted_inv in H1. destruct H1 as [H1 Hx].
      apply StronglySorted_inv in H2. destruct H2 as [H2 Hy].
      assert (x = y) as ->.
      { assert (In y (x :: l1)) as Hyin
          by (apply (Permutation_in y (Permutation_sym Hp)); now left).
        assert (In x (y :: l2)) as Hxin
          by (apply (Permutation_in x Hp); now left).
        destruct Hyin as [Hyx|Hyin]; [now symmetry|].
        destruct Hxin as [Hxy|Hxin]; [now symmetry|].
        apply String.leb_antisym.
        - exact (proj1 (Forall_forall _ _) Hx y Hyin).
        - exact (proj1 (Forall_forall _ _) Hy x Hxin). }
      f_equal. apply IH; [assumption | assumption |].
      now apply Permutation_cons_inv in Hp.
Qed.

(** The result of [sorted] does not depend on the order of its input. *)
Lemma sorted_order_independent (l1 l2 : list string) :
  Permutation l1 l2 -> sorted l1 = sorted l2.
Proof.
  intro Hp. apply StronglySorted_unique; try apply sorted_StronglySorted.
  rewrite !sorted_perm. exact Hp.
Qed.

Lemma set_In (l : list string) (x : string) : In x (set l) <-> In x l.
Proof. apply nodup_In. Qed.

Lemma set_NoDup (l : list string) : NoDup (set l).
Proof. apply NoDup_nodup. Qed.

(* ===================================================================== *)
(** ** Facts about [groupby] and the inline mapping builder *)
(* ===================================================================== *)

Lemma strings_of_In (k : string) (cs : list cell) :
  In k (strings_of cs) <-> In (Str k) cs.
Proof.
  induction cs as [|[|s] cs IH]; simpl.
  - tauto.
  - rewrite IH. split; [tauto|]. intros [H|H]; [discriminate | assumption].
  - rewrite IH. split; intros [H|H]; subst; try tauto.
    inversion H. now left.
Qed.

Lemma group_keys_In (c : column) (df : DataFrame) (k : string) :
  In k (group_keys c df) <-> exists r, In r df /\ get c r = Str k.
Proof.
  unfold group_keys. rewrite sorted_In, set_In, strings_of_In, in_map_iff.
  split; intros (r & H1 & H2); exists r; tauto.
Qed.

Lemma group_keys_NoDup (c : column) (df : DataFrame) : NoDup (group_keys c df).
Proof. apply sorted_NoDup, set_NoDup. Qed.

Lemma group_of_nonempty (c : column) (df : DataFrame) (k : string) :
  In k (group_keys c df) <-> group_of c df k <> [].
Proof.
  rewrite group_keys_In. unfold group_of. split.
  - intros (r & Hin & Hk) Hnil.
    assert (In r (filter (fun r => cell_eqb (get c r) (Str k)) df)) as H.
    { apply filter_In. split; [assumption|]. now apply cell_eqb_eq. }
    rewrite Hnil in H. exact H.
  - intro Hne.
    destruct (filter (fun r => cell_eqb (get c r) (Str k)) df) as [|r g] eqn:Hg;
      [congruence|].
    assert (In r (r :: g)) as H by now left.
    rewrite <- Hg in H. apply filter_In in H. destruct H as [Hin Hk].
    exists r. split; [assumption | now apply cell_eqb_eq].
Qed.

Lemma build_mapping_unfold (df : DataFrame) :
  build_mapping df
  = map (fun k => group_entry k (group_of Pandas.appeals_case_number df k))
        (group_keys Pandas.appeals_case_number df).
Proof.
  unfold build_mapping, groupby. rewrite map_map. reflexivity.
Qed.

Lemma group_entry_collapsed (k : string) (g : DataFrame) :
  group_entry k g = (k, collapsed (map (fun r => snd (entry_of_row r)) g)).
Proof.
  unfold group_entry, collapsed. rewrite length_map. reflexivity.
Qed.

Lemma members_collapsed (ds : list dict) : members (collapsed ds) = ds.
Proof.
  unfold collapsed. destruct ds as [|d [|d' ds]]; reflexivity.
Qed.

Lemma lookup_keys (f : string -> group_value) (ks : list string) (k : string) :
  lookup k (map (fun k => (k, f k)) ks)
  = if in_dec string_dec k ks then Some (f k) else None.
Proof.
  induction ks as [|k' ks IH]; simpl; [reflexivity|].
  destruct (String.eqb_spec k k') as [->|Hne].
  - destruct (string_dec k' k'); [reflexivity | congruence].
  - rewrite IH. destruct (string_dec k' k); [congruence|].
    now destruct (in_dec string_dec k ks).
Qed.

Lemma lookup_build_mapping (df : DataFrame) (k : string) :
  lookup k (build_mapping df)
  = match with_key Pandas.appeals_case_number (Str k) df with
    | [] => None
    | g => Some (collapsed (map (fun r => snd (entry_of_row r)) g))
    end.
Proof.
  rewrite build_mapping_unfold.
  rewrite (map_ext _ (fun k => (k, collapsed (map (fun r => snd (entry_of_row r))
                                     (group_of Pandas.appeals_case_number df k)))))
    by (intro; apply group_entry_collapsed).
  rewrite (lookup_keys
             (fun k => collapsed (map (fun r => snd (entry_of_row r))
                                      (group_of Pandas.appeals_case_number df k)))).
  change (with_key Pandas.appeals_case_number (Str k) df)
    with (group_of Pandas.appeals_case_number df k).
  destruct (in_dec string_dec k (group_keys Pandas.appeals_case_number df)) as [Hin|Hout].
  - apply group_of_nonempty in Hin.
    now destruct (group_of Pandas.appeals_case_number df k).
  - destruct (group_of Pandas.appeals_case_number df k) eqn:Hg; [reflexivity|].
    exfalso. apply Hout. apply group_of_nonempty. congruence.
Qed.

(** Splitting a list by two predicates that never hold together. *)
Lemma filter_disjoint_perm {A} (p q : A -> bool) (l : list A) :
  (forall x, In x l -> p x = true -> q x = true -> False) ->
  Permutation (filter p l ++ filter q l) (filter (fun x => p x || q x) l).
Proof.
  induction l as [|x l IH]; intro Hd; simpl; [reflexivity|].
  assert (Permutation (filter p l ++ filter q l) (filter (fun x => p x || q x) l))
    as IH' by (apply IH; intros y Hy; apply Hd; now right).
  destruct (p x) eqn:Hp, (q x) eqn:Hq; simpl.
  - exfalso. apply (Hd x); [now left | assumption | assumption].
  - now constructor.
  - rewrite <- IH'. symmetry. apply Permutation_middle.
  - exact IH'.
Qed.

(** The groups of distinct keys, laid end to end, are the rows that carry
    one of the keys. *)
Lemma groups_perm (c : column) (df : DataFrame) (ks : list string) :
  NoDup ks ->
  Permutation (flat_map (group_of c df) ks)
              (filter (fun r => existsb (fun k => cell_eqb (get c r) (Str k)) ks) df).
Proof.
  induction ks as [|k ks IH]; intro Hnd; simpl.
  - induction df as [|r df IHdf]; simpl; [reflexivity | exact IHdf].
  - inversion Hnd as [|? ? Hk Hks]; subst.
    rewrite (IH Hks). unfold group_of.
    apply (filter_disjoint_perm
             (fun r => cell_eqb (get c r) (Str k))
             (fun r => existsb (fun k => cell_eqb (get c r) (Str k)) ks)).
    intros r _ H1 H2. apply cell_eqb_eq in H1.
    apply existsb_exists in H2. destruct H2 as (k' & Hin & Hk').
    apply cell_eqb_eq in Hk'. rewrite H1 in Hk'. inversion Hk'. congruence.
Qed.

Lemma record_of_entry_of_row (r : Row) :
  isnull (app_no r) = false -> record_of_entry (entry_of_row r) = r.
Proof.
  destruct r as [a b [|k] d e]; simpl; [discriminate | reflexivity].
Qed.

Lemma flatten_build_mapping (df : DataFrame) :
  flatten (build_mapping df)
  = map entry_of_row
        (flat_map (group_of Pandas.appeals_case_number df)
                  (group_keys Pandas.appeals_case_number df)).
Proof.
  rewrite build_mapping_unfold. unfold flatten.
  induction (group_keys Pandas.appeals_case_number df) as [|k ks IH];
    [reflexivity|].
  cbn [map flat_map]. rewrite IH, map_app. f_equal.
  rewrite group_entry_collapsed. cbn [fst snd].
  rewrite members_collapsed, map_map.
  apply map_ext_in. intros r Hr.
  unfold group_of in Hr. apply filter_In in Hr. destruct Hr as [_ Hk].
  apply cell_eqb_eq in Hk. simpl in Hk.
  unfold entry_of_row. now rewrite Hk.
Qed.

Lemma flatten_build_mapping_perm (df : DataFrame) :
  Permutation (map record_of_entry (flatten (build_mapping df)))
              (filter (fun r => negb (isnull (app_no r))) df).
Proof.
  rewrite flatten_build_mapping, map_map.
  rewrite (map_ext_in _ (fun r => r)).
  - rewrite map_id.
    rewrite (groups_perm Pandas.appeals_case_number df
               (group_keys Pandas.appeals_case_number df)
               (group_keys_NoDup Pandas.appeals_case_number df)).
    rewrite (filter_ext_in _ (fun r => negb (isnull (app_no r)))); [reflexivity|].
    intros r Hr. simpl.
    destruct (app_no r) as [|k] eqn:Hk; simpl.
    + apply not_true_is_false. intro H. apply existsb_exists in H.
      destruct H as (k & _ & H). discriminate H.
    + apply existsb_exists. exists k. split; [|apply String.eqb_refl].
      apply group_keys_In. exists r. now split.
  - intros r Hr. apply record_of_entry_of_row.
    apply in_flat_map in Hr. destruct Hr as (k & _ & Hr).
    unfold group_of in Hr. apply filter_In in Hr. destruct Hr as [_ Hk].
    apply cell_eqb_eq in Hk. simpl in Hk. now rewrite Hk.
Qed.

(* ===================================================================== *)
(** ** Facts about the standalone converter *)
(* ===================================================================== *)

Lemma extended_nil (o : option (list dict)) : extended o [] = o.
Proof. destruct o as [ds|]; simpl; [now rewrite app_nil_r | reflexivity]. Qed.

Lemma extended_cons (o : option (list dict)) (d : dict) (more : list dict) :
  extended (extended o [d]) more = extended o (d :: more).
Proof.
  destruct o as [ds|]; simpl.
  - now rewrite <- app_assoc.
  - reflexivity.
Qed.

Lemma assoc_append_to (k k' : string) (d : dict) (g : list (string * list dict)) :
  assoc k (CsvToJson.append_to k' d g)
  = if k =? k' then extended (assoc k g) [d] else assoc k g.
Proof.
  induction g as [|[k'' ds] g IH]; simpl.
  - now destruct (k =? k').
  - destruct (String.eqb_spec k' k'') as [<-|Hne]; simpl.
    + now destruct (k =? k').
    + destruct (String.eqb_spec k k'') as [<-|Hne'].
      * destruct (String.eqb_spec k k') as [Heq|_]; [congruence | reflexivity].
      * exact IH.
Qed.

Lemma assoc_fold (f : Csv) :
  forall (g : list (string * list dict)) (k : string),
  assoc k (fold_left (fun g row => CsvToJson.append_to (strip (f_app_no row))
                                     (CsvToJson.record_of row) g) f g)
  = extended (assoc k g) (map CsvToJson.record_of (lines_with_key k f)).
Proof.
  induction f as [|l f IH]; intros g k; simpl.
  - now rewrite extended_nil.
  - rewrite IH, assoc_append_to, (String.eqb_sym (strip (f_app_no l)) k).
    destruct (k =? strip (f_app_no l)); [|reflexivity].
    simpl. apply extended_cons.
Qed.

Lemma lookup_collapse (g : list (string * list dict)) (k : string) :
  lookup k (map CsvToJson.collapse g) = option_map collapsed (assoc k g).
Proof.
  induction g as [|[k' ds] g IH]; simpl; [reflexivity|].
  now destruct (k =? k').
Qed.

Lemma lookup_converter (f : Csv) (k : string) :
  lookup k (CsvToJson.mapping f)
  = match lines_with_key k f with
    | [] => None
    | g => Some (collapsed (map CsvToJson.record_of g))
    end.
Proof.
  unfold CsvToJson.mapping, CsvToJson.grouped.
  rewrite lookup_collapse, assoc_fold. simpl.
  now destruct (lines_with_key k f).
Qed.

Lemma pairs_of_append_to (k : string) (d : dict) (g : list (string * list dict)) :
  Permutation (pairs_of (CsvToJson.append_to k d g)) (pairs_of g ++ [(k, d)]).
Proof.
  unfold pairs_of.
  induction g as [|[k' ds] g IH]; simpl; [reflexivity|].
  destruct (String.eqb_spec k k') as [<-|Hne]; simpl.
  - rewrite map_app. simpl. rewrite <- !app_assoc.
    apply Permutation_app_head. apply Permutation_app_comm.
  - rewrite IH. now rewrite app_assoc.
Qed.

Lemma pairs_of_fold (f : Csv) :
  forall g : list (string * list dict),
  Permutation
    (pairs_of (fold_left (fun g row => CsvToJson.append_to (strip (f_app_no row))
                                         (CsvToJson.record_of row) g) f g))
    (pairs_of g ++ map entry_of_line f).
Proof.
  induction f as [|l f IH]; intro g; simpl.
  - now rewrite app_nil_r.
  - rewrite IH, pairs_of_append_to, <- app_assoc. reflexivity.
Qed.

Lemma flatten_collapse (g : list (string * list dict)) :
  flatten (map CsvToJson.collapse g) = pairs_of g.
Proof.
  unfold flatten, pairs_of.
  induction g as [|[k ds] g IH]; simpl; [reflexivity|].
  rewrite IH. f_equal. f_equal.
  exact (members_collapsed ds).
Qed.

Lemma flatten_converter_perm (f : Csv) :
  Permutation (flatten (CsvToJson.mapping f)) (map entry_of_line f).
Proof.
  unfold CsvToJson.mapping, CsvToJson.grouped.
  rewrite flatten_collapse. exact (pairs_of_fold f []).
Qed.

(** Every object of a mapping appears in its flattening. *)
Lemma flatten_In (m : Mapping) (kv : string * group_value) (d : dict) :
  In kv m -> In d (members (snd kv)) -> In (fst kv, d) (flatten m).
Proof.
  intros Hkv Hd. unfold flatten. apply in_flat_map.
  exists kv. split; [assumption | now apply in_map].
Qed.

(* ===================================================================== *)
(** ** Facts about [strip] and the reloaded frame *)
(* ===================================================================== *)

Section StripFront.

Variable p1 : ascii -> bool.
Variable p2 : ascii -> ascii -> bool.
Variable p3 : ascii -> ascii -> ascii -> bool.

(** The list begins with a sequence that one of the tests accepts. *)
Let starts (l : list ascii) : bool :=
  match l with
  | [] => false
  | a :: l1 =>
      p1 a
      || match l1 with
         | [] => false
         | b :: l2 =>
             p2 a b
             || match l2 with
                | [] => false
                | c :: _ => p3 a b c
                end
         end
  end.

Lemma strip_front_fixed (l : list ascii) :
  starts l = false -> strip_front p1 p2 p3 l = l.
Proof.
  destruct l as [|a [|b [|c l]]]; simpl; intro H; try reflexivity.
  - apply orb_false_elim in H. destruct H as [H1 _]. now rewrite H1.
  - apply orb_false_elim in H. destruct H as [H1 H].
    apply orb_false_elim in H. destruct H as [H2 _]. now rewrite H1, H2.
  - apply orb_false_elim in H. destruct H as [H1 H].
    apply orb_false_elim in H. destruct H as [H2 H3]. now rewrite H1, H2, H3.
Qed.

Lemma strip_front_stops (n : nat) :
  forall l : list ascii,
    List.length l <= n -> starts (strip_front p1 p2 p3 l) = false.
Proof.
  induction n as [|n IH]; intros l Hlen.
  - destruct l; [reflexivity | simpl in Hlen; lia].
  - destruct l as [|a l1]; [reflexivity|].
    simpl in Hlen. cbn [strip_front].
    destruct (p1 a) eqn:H1; [apply IH; lia|].
    destruct l1 as [|b l2]; [simpl; now rewrite H1|].
    simpl in Hlen.
    destruct (p2 a b) eqn:H2; [apply IH; lia|].
    destruct l2 as [|c l3]; [simpl; now rewrite H1, H2|].
    simpl in Hlen.
    destruct (p3 a b c) eqn:H3; [apply IH; lia|].
    simpl. now rewrite H1, H2, H3.
Qed.

Lemma strip_front_idempotent (l : list ascii) :
  strip_front p1 p2 p3 (strip_front p1 p2 p3 l) = strip_front p1 p2 p3 l.
Proof.
  apply strip_front_fixed. now apply (strip_front_stops (List.length l)).
Qed.

Lemma strip_front_suffix (n : nat) :
  forall l : list ascii,
    List.length l <= n -> exists w, l = w ++ strip_front p1 p2 p3 l.
Proof.
  induction n as [|n IH]; intros l Hlen.
  - destruct l; [now exists [] | simpl in Hlen; lia].
  - destruct l as [|a l1]; [now exists []|].
    simpl in Hlen. cbn [strip_front].
    destruct (p1 a).
    { destruct (IH l1) as (w & Hw); [lia|]. exists (a :: w). simpl. now f_equal. }
    destruct l1 as [|b l2]; [now exists []|].
    simpl in Hlen.
    destruct (p2 a b).
    { destruct (IH l2) as (w & Hw); [lia|]. exists (a :: b :: w). simpl.
      now do 2 f_equal. }
    destruct l2 as [|c l3]; [now exists []|].
    simpl in Hlen.
    destruct (p3 a b c); [|now exists []].
    destruct (IH l3) as (w & Hw); [lia|]. exists (a :: b :: c :: w). simpl.
    now do 3 f_equal.
Qed.

Lemma starts_app (l x : list ascii) :
  starts l = true -> starts (l ++ x) = true.
Proof.
  destruct l as [|a [|b [|c l]]]; simpl; intro H; try discriminate.
  - rewrite orb_false_r in H. now rewrite H.
  - rewrite orb_false_r in H. apply orb_true_iff in H.
    destruct H as [H | H]; rewrite H; [reflexivity|]. simpl.
    destruct x; now rewrite !orb_true_r.
  - exact H.
Qed.

(** When nothing is stripped from a list, nothing is stripped from a
    non-empty front part of it either. *)
Lemma strip_front_fixed_front (l x : list ascii) :
  strip_front p1 p2 p3 (l ++ x) = l ++ x -> l <> [] ->
  strip_front p1 p2 p3 l = l.
Proof.
  intros Hfixed Hne. apply strip_front_fixed.
  destruct (starts l) eqn:Hs; [|reflexivity].
  apply (starts_app l x) in Hs.
  pose proof (strip_front_stops (List.length (l ++ x)) (l ++ x) (le_n _)) as Hstop.
  rewrite Hfixed in Hstop. congruence.
Qed.

End StripFront.

Lemma lstrip_bytes_idempotent (l : list ascii) :
  lstrip_bytes (lstrip_bytes l) = lstrip_bytes l.
Proof. apply strip_front_idempotent. Qed.

Lemma rstrip_bytes_idempotent (l : list ascii) :
  rstrip_bytes (rstrip_bytes l) = rstrip_bytes l.
Proof.
  unfold rstrip_bytes. now rewrite rev_involutive, strip_front_idempotent.
Qed.

(** Stripping the front of a list without trailing whitespace leaves a list
    without trailing whitespace. *)
Lemma rstrip_lstrip_bytes (t : list ascii) :
  rstrip_bytes t = t -> rstrip_bytes (lstrip_bytes t) = lstrip_bytes t.
Proof.
  intro Ht.
  destruct (strip_front_suffix space1 space2 space3 (List.length t) t (le_n _))
    as (w & Hw).
  fold (lstrip_bytes t) in Hw.
  destruct (lstrip_bytes t) as [|a u] eqn:Hu; [reflexivity|].
  unfold rstrip_bytes in *.
  assert (strip_front space1 (fun b a => space2 a b) (fun c b a => space3 a b c)
                      (rev t) = rev t) as Hfixed.
  { rewrite <- Ht at 2. now rewrite rev_involutive. }
  rewrite Hw, rev_app_distr in Hfixed.
  rewrite (strip_front_fixed_front _ _ _ (rev (a :: u)) (rev w) Hfixed).
  - apply rev_involutive.
  - intro Hnil. apply (f_equal (@List.length ascii)) in Hnil.
    rewrite length_rev in Hnil. discriminate Hnil.
Qed.

Lemma strip_trimmed (s : string) : trimmed (strip s).
Proof.
  unfold trimmed, strip, lstrip, rstrip.
  rewrite !list_ascii_of_string_of_list_ascii.
  rewrite (rstrip_lstrip_bytes (rstrip_bytes (list_ascii_of_string s))
             (rstrip_bytes_idempotent _)).
  now rewrite lstrip_bytes_idempotent.
Qed.

(** No-break spaces and ideographic spaces are stripped like blanks; a
    zero-width space is not whitespace. *)
Example strip_unicode :
  strip "  12/2020　 " = "12/2020"
  /\ strip "  " = ""
  /\ strip "​" = "​".
Proof. repeat split; reflexivity. Qed.

Lemma str_strip_trimmed (c : cell) : trimmed_cell (str_strip c).
Proof. destruct c; simpl; [exact I | apply strip_trimmed]. Qed.

Lemma strip_row_trimmed (r : Row) : trimmed_row (strip_row r).
Proof.
  unfold trimmed_row, cols. repeat constructor; simpl; apply str_strip_trimmed.
Qed.

Lemma reload_unfold (f : Csv) :
  reload f = map (fun r => strip_row (blank_missing_link r)) (read_csv f).
Proof.
  unfold reload. simpl. rewrite !map_map. apply map_ext.
  intro r. now destruct r.
Qed.

Lemma reload_trimmed (f : Csv) : Forall trimmed_row (reload f).
Proof.
  rewrite reload_unfold. apply Forall_forall. intros r Hr.
  apply in_map_iff in Hr. destruct Hr as (r0 & <- & _).
  apply strip_row_trimmed.
Qed.

(* ===================================================================== *)
(** ** The Merge/Dedupe Engine *)
(* ===================================================================== *)


Lemma find_app {A} (f : A -> bool) (l1 l2 : list A) :
  find f (l1 ++ l2) = match find f l1 with Some x => Some x | None => find f l2 end.
Proof.
  induction l1 as [|x l1 IH]; simpl; [reflexivity|].
  now destruct (f x).
Qed.

Lemma find_present {A} (f : A -> bool) (l : list A) (x : A) :
  In x l -> f x = true -> find f l <> None.
Proof.
  intros Hin Hf Hnone. apply (find_none f l Hnone x) in Hin. congruence.
Qed.

Lemma merge_unfold (prior : DataFrame) (all_rows : list tuple5) :
  merge prior all_rows
  = drop_duplicates supreme_case_number
      (prior ++ select has_appeals_case (DataFrame_of all_rows)).
Proof.
  unfold merge, concat. simpl. now rewrite app_nil_r.
Qed.

(** On a freshly built frame the mask of line 129 is the non-blank test. *)
Lemma has_appeals_case_scraped (t : tuple5) :
  has_appeals_case (row_of_tuple t) = truthy (strip (tuple_app_no t)).
Proof. now destruct t as [[[[a b] c] d] e]. Qed.

Lemma has_appeals_case_nonblank (t : tuple5) :
  has_appeals_case (row_of_tuple t) = nonblank (app_no (row_of_tuple t)).
Proof. now destruct t as [[[[a b] c] d] e]. Qed.

Lemma merge_In (prior : DataFrame) (all_rows : list tuple5) (r : Row) :
  In r (merge prior all_rows) ->
  In r prior \/ (In r (DataFrame_of all_rows) /\ nonblank (app_no r) = true).
Proof.
  rewrite merge_unfold. intro H. apply drop_duplicates_In in H.
  apply in_app_or in H. destruct H as [H|H]; [now left | right].
  unfold select in H. apply filter_In in H. destruct H as [Hin Hmask].
  split; [assumption|].
  unfold DataFrame_of in Hin. apply in_map_iff in Hin.
  destruct Hin as (t & <- & _). now rewrite <- has_appeals_case_nonblank.
Qed.

(** C1. The merge is the keep-first dedupe, by supreme_case_number, of the
    prior rows followed by the scraped rows that pass the filter.  The prior
    part of the result does not depend on what was scraped: it is the dedupe
    of the prior rows alone, and the scraped rows only add records whose key
    no prior row has.  So the record found under the key of any prior row is
    the same prior record, with the same field values, before and after the
    merge; and a prior sequence with distinct keys is kept whole, in place. *)
Theorem merge_keeps_prior_records :
  forall (prior : DataFrame) (all_rows : list tuple5),
    let fresh := select has_appeals_case (DataFrame_of all_rows) in
    merge prior all_rows = drop_duplicates supreme_case_number (prior ++ fresh)
    /\ merge prior all_rows
       = drop_duplicates supreme_case_number prior
         ++ filter (fun r => negb (existsb (cell_eqb (sup_no r)) (map sup_no prior)))
                   (drop_duplicates supreme_case_number fresh)
    /\ (forall p : Row, In p prior ->
          find (fun r => cell_eqb (sup_no r) (sup_no p)) (merge prior all_rows)
          = find (fun r => cell_eqb (sup_no r) (sup_no p)) prior)
    /\ (NoDup (map sup_no prior) ->
          exists added : DataFrame, merge prior all_rows = prior ++ added).
Proof.
  intros prior all_rows fresh.
  pose proof (merge_unfold prior all_rows) as Hm. fold fresh in Hm.
  pose proof (drop_duplicates_app supreme_case_number prior fresh) as Happ.
  simpl in Happ.
  repeat split.
  - exact Hm.
  - now rewrite Hm.
  - intros p Hp. rewrite Hm. unfold drop_duplicates.
    pose proof (ddf_find supreme_case_number (sup_no p) (prior ++ fresh) [])
      as Hdd.
    simpl in Hdd. rewrite Hdd; [|tauto].
    rewrite find_app.
    destruct (find (fun r => cell_eqb (sup_no r) (sup_no p)) prior) eqn:Hf;
      [reflexivity|].
    exfalso. revert Hf. apply find_present with (x := p);
      [assumption | apply cell_eqb_refl].
  - intro Hnd. eexists. rewrite Hm, Happ.
    now rewrite (drop_duplicates_fixed supreme_case_number prior Hnd).
Qed.

Lemma merge_keeps_prior_records_witness :
  In Examples.stored_2024_10 [Examples.stored_2024_10]
  /\ find (fun r => cell_eqb (sup_no r) (sup_no Examples.stored_2024_10))
          (merge [Examples.stored_2024_10] [Examples.scraped_2024_10; Examples.scraped_2024_11])
     = Some Examples.stored_2024_10.
Proof.
  split; [simpl; now left|].
  destruct (merge_keeps_prior_records [Examples.stored_2024_10]
              [Examples.scraped_2024_10; Examples.scraped_2024_11])
    as (_ & _ & Hfind & _).
  rewrite (Hfind Examples.stored_2024_10); [reflexivity | simpl; now left].
Defined.

(** The dedupe-precedence example of the specification: the stored record
    for 2024-10 stays as it is, the re-scraped one is dropped, the new case
    is appended. *)
Example dedupe_precedence :
  merge [Examples.stored_2024_10] [Examples.scraped_2024_10; Examples.scraped_2024_11]
  = [Examples.stored_2024_10; row_of_tuple Examples.scraped_2024_11].
Proof. reflexivity. Qed.

(** C2, as stated, fails: the filter of line 129 is applied to the scraped
    frame only, so a stored record without an appeals number stays in the
    merged set. *)
Lemma stored_row_without_appeals_number_survives :
  ~ (forall (prior : DataFrame) (all_rows : list tuple5),
       Forall (fun r => nonblank (app_no r) = true) (merge prior all_rows)).
Proof.
  intro H.
  specialize (H (read_csv [Examples.line_without_appeals]) []).
  assert (merge (read_csv [Examples.line_without_appeals]) []
          = [mkRow (Str "2019-3") (Str Examples.detail_a2) NaN NaN (Str "dóm")])
    as Hmerged by (vm_compute; reflexivity).
  rewrite Hmerged in H. apply Forall_inv in H. discriminate H.
Qed.

(** C2, amended. When every prior record has a non-empty appeals case
    number, so has every record of the merged set. *)
Theorem merged_rows_have_appeals_number :
  forall (prior : DataFrame) (all_rows : list tuple5),
    Forall (fun r => nonblank (app_no r) = true) prior ->
    Forall (fun r => nonblank (app_no r) = true) (merge prior all_rows).
Proof.
  intros prior all_rows Hprior. apply Forall_forall. intros r Hr.
  apply merge_In in Hr. destruct Hr as [Hr|[_ Hr]]; [|assumption].
  now apply (proj1 (Forall_forall _ prior) Hprior).
Qed.

Lemma merged_rows_have_appeals_number_witness :
  Forall (fun r => nonblank (app_no r) = true) [Examples.stored_2024_10]
  /\ Forall (fun r => nonblank (app_no r) = true)
       (merge [Examples.stored_2024_10]
              [Examples.scraped_unresolved; Examples.scraped_2024_11]).
Proof.
  assert (Forall (fun r => nonblank (app_no r) = true) [Examples.stored_2024_10])
    as Hprior by (repeat constructor).
  split; [exact Hprior|].
  exact (merged_rows_have_appeals_number [Examples.stored_2024_10]
           [Examples.scraped_unresolved; Examples.scraped_2024_11] Hprior).
Defined.

Lemma select_blank_tuple (before after : list tuple5) (t : tuple5) :
  strip (tuple_app_no t) = "" ->
  select has_appeals_case (DataFrame_of (before ++ t :: after))
  = select has_appeals_case (DataFrame_of (before ++ after)).
Proof.
  intro Hblank. unfold select, DataFrame_of.
  rewrite !map_app, !filter_app. simpl.
  now rewrite has_appeals_case_scraped, Hblank.
Qed.

(** A scraped row with a blank appeals case number might as well not have
    been scraped. *)
Lemma merge_skips_blank_row (prior : DataFrame) (before after : list tuple5)
      (t : tuple5) :
  strip (tuple_app_no t) = "" ->
  merge prior (before ++ t :: after) = merge prior (before ++ after).
Proof.
  intro Hblank. rewrite !merge_unfold. do 2 f_equal.
  exact (select_blank_tuple before after t Hblank).
Qed.

(** C7. A scraped row whose appeals case number is empty or only whitespace
    contributes nothing to the merged set, whatever its other four fields
    are: the merge gives the same result as if the row had not been scraped,
    and every merged record is a prior record or one of the other scraped
    rows. *)
Theorem scraped_row_without_appeals_number_is_dropped :
  forall (prior : DataFrame) (before after : list tuple5) (a b c d e : string),
    strip c = "" ->
    merge prior (before ++ (a, b, c, d, e) :: after) = merge prior (before ++ after)
    /\ forall r : Row,
         In r (merge prior (before ++ (a, b, c, d, e) :: after)) ->
         In r prior \/ In r (DataFrame_of (before ++ after)).
Proof.
  intros prior before after a b c d e Hblank.
  pose proof (merge_skips_blank_row prior before after (a, b, c, d, e) Hblank)
    as Heq.
  split; [exact Heq|].
  intros r Hr.
  pose proof (eq_ind _ (fun m => In r m) Hr _ Heq) as Hr'.
  apply merge_In in Hr'. tauto.
Qed.

Lemma scraped_row_without_appeals_number_is_dropped_witness :
  strip "  　" = ""
  /\ merge [Examples.stored_2024_10]
       ([Examples.scraped_2024_11]
          ++ ("2024-12", Examples.detail_a2, "  　", "", "dóm") :: [])
     = [Examples.stored_2024_10; row_of_tuple Examples.scraped_2024_11].
Proof.
  split; [reflexivity|].
  exact (eq_trans
           (proj1 (scraped_row_without_appeals_number_is_dropped
                     [Examples.stored_2024_10] [Examples.scraped_2024_11] []
                     "2024-12" Examples.detail_a2 "  　" "" "dóm" eq_refl))
           eq_refl).
Defined.

(** The empty string is a dedupe key like any other: of all the records of
    the concatenated sequence whose supreme_case_number is the empty string,
    exactly the first is in the merged set.  The empty string is what a fresh
    scrape without a match carries; a stored record never carries it. *)
Lemma empty_supreme_number_is_a_dedupe_key :
  forall (prior : DataFrame) (all_rows : list tuple5),
    with_key supreme_case_number (Str "") (merge prior all_rows)
    = firstn 1 (with_key supreme_case_number (Str "")
                  (prior ++ select has_appeals_case (DataFrame_of all_rows))).
Proof.
  intros prior all_rows. rewrite merge_unfold. unfold drop_duplicates.
  now rewrite ddf_with_key.
Qed.

(** Two different detail pages without a supreme case number: only the
    first is kept. *)
Example nameless_pages_collapse :
  merge [] [Examples.scraped_nameless_1; Examples.scraped_2024_11; Examples.scraped_nameless_2]
  = [row_of_tuple Examples.scraped_nameless_1; row_of_tuple Examples.scraped_2024_11].
Proof. reflexivity. Qed.

(* ===================================================================== *)
(** ** The Grouping/Mapping Builder *)
(* ===================================================================== *)

Lemma build_mapping_members (df : DataFrame) (kv : string * group_value) (d : dict) :
  In kv (build_mapping df) -> In d (members (snd kv)) ->
  exists r, In r df /\ app_no r = Str (fst kv) /\ d = snd (entry_of_row r).
Proof.
  intros Hkv Hd.
  apply (flatten_In (build_mapping df) kv d Hkv) in Hd.
  rewrite flatten_build_mapping in Hd. apply in_map_iff in Hd.
  destruct Hd as (r & He & Hr).
  apply in_flat_map in Hr. destruct Hr as (k & _ & Hr).
  unfold group_of in Hr. apply filter_In in Hr. destruct Hr as [Hin Hk].
  apply cell_eqb_eq in Hk. simpl in Hk.
  exists r. unfold entry_of_row in He. rewrite Hk in He. simpl in He.
  inversion He; subst. repeat split; assumption.
Qed.

Lemma converter_members (f : Csv) (kv : string * group_value) (d : dict) :
  In kv (CsvToJson.mapping f) -> In d (members (snd kv)) ->
  exists l, In l f /\ strip (f_app_no l) = fst kv /\ d = CsvToJson.record_of l.
Proof.
  intros Hkv Hd.
  apply (flatten_In (CsvToJson.mapping f) kv d Hkv) in Hd.
  apply (Permutation_in _ (flatten_converter_perm f)) in Hd.
  apply in_map_iff in Hd. destruct Hd as (l & He & Hl).
  unfold entry_of_line in He. inversion He; subst.
  exists l. repeat split; assumption.
Qed.

(** C3, as stated, fails for the standalone converter: the objects it stores
    carry the appeals_case_number field as well. *)
Lemma converter_objects_have_five_fields :
  ~ (forall f : Csv,
       Forall (fun kv => Forall (fun d => field_names d = four_fields)
                                (members (snd kv)))
              (CsvToJson.mapping f)).
Proof.
  intro H.
  specialize (H [mkCsv "2024-10" Examples.detail_a1 "12/2020" Examples.appeals_x "dóm"]).
  vm_compute in H.
  inversion H as [|? ? Hgroup _]. inversion Hgroup as [|? ? Hd _].
  discriminate Hd.
Qed.

(** C3, amended. Every object the inline builder of the pipeline stores,
    bare or inside a list, has exactly the four fields supreme_case_number,
    supreme_case_link, appeals_case_link and source_type, and no
    appeals_case_number field.  Every object the standalone converter stores
    has these four fields after an appeals_case_number field that repeats
    the key it is stored under. *)
Theorem lookup_value_fields :
  (forall df : DataFrame,
     Forall (fun kv =>
               Forall (fun d => field_names d = four_fields
                                /\ field "appeals_case_number" d = None)
                      (members (snd kv)))
            (build_mapping df))
  /\ (forall f : Csv,
        Forall (fun kv =>
                  Forall (fun d => field_names d = "appeals_case_number" :: four_fields
                                   /\ field "appeals_case_number" d = Some (Str (fst kv)))
                         (members (snd kv)))
               (CsvToJson.mapping f)).
Proof.
  split.
  - intro df. apply Forall_forall. intros kv Hkv.
    apply Forall_forall. intros d Hd.
    destruct (build_mapping_members df kv d Hkv Hd) as (r & _ & _ & ->).
    split; reflexivity.
  - intro f. apply Forall_forall. intros kv Hkv.
    apply Forall_forall. intros d Hd.
    destruct (converter_members f kv d Hkv Hd) as (l & _ & <- & ->).
    split; reflexivity.
Qed.

Lemma line_of_record_of (l : CsvRow) :
  line_of_object (CsvToJson.record_of l) = stripped_line l.
Proof. reflexivity. Qed.

Lemma converter_flatten_lines (f : Csv) :
  Permutation (map (fun e => line_of_object (snd e)) (flatten (CsvToJson.mapping f)))
              (map stripped_line f).
Proof.
  rewrite (Permutation_map (fun e => line_of_object (snd e))
             (flatten_converter_perm f)).
  rewrite map_map. unfold entry_of_line. simpl.
  rewrite (map_ext _ stripped_line) by (intro l; apply line_of_record_of).
  reflexivity.
Qed.

(** C6, as stated, fails: the builder groups the records as it reads them
    back from the record file, every field stripped.  A merged set with the
    appeals numbers " 12/2020" and "12/2020" has exactly one record under the
    key "12/2020", yet the lookup holds a list of two under it. *)
Lemma padded_appeals_numbers_share_a_group :
  ~ (forall (f : Csv) (all_rows : list tuple5) (k : string) (r : Row),
       with_key Pandas.appeals_case_number (Str k) (merge (read_csv f) all_rows) = [r] ->
       exists d : dict,
         lookup k (snd (pipeline (Some f) all_rows)) = Some (Single d)).
Proof.
  intro H.
  destruct (H padded_file [] "12/2020"
              (mkRow (Str "2024-13") (Str Examples.detail_a2) (Str "12/2020")
                     (Str Examples.appeals_x) (Str "ákvörðun")) eq_refl)
    as (d & Hd).
  vm_compute in Hd. discriminate Hd.
Qed.

(** C6, amended.  The law holds of the records as the builder reads them:
    for every frame [df] handed to the grouping (in a run, the record file
    read back with every field stripped), a key carried by exactly one
    record maps to the bare object of that record; a key carried by N > 1
    records maps to the list of their N objects, in the order the records
    have in [df]; a key carried by no record is absent; and the records read
    back from the flattened lookup are, up to order, the records of [df] that
    have an appeals case number.  The standalone converter obeys the law over
    all the lines of the file, keyed by the stripped appeals field, the empty
    key included: the lines read back from its objects are, up to order, the
    stripped lines of the file. *)
Theorem grouping_collapse_law_as_read_back :
  (forall df : DataFrame,
     (forall (k : string) (r : Row),
         with_key Pandas.appeals_case_number (Str k) df = [r] ->
         lookup k (build_mapping df) = Some (Single (snd (entry_of_row r))))
     /\ (forall (k : string) (g : DataFrame),
           with_key Pandas.appeals_case_number (Str k) df = g ->
           1 < List.length g ->
           exists ds : list dict,
             lookup k (build_mapping df) = Some (Many ds)
             /\ ds = map (fun r => snd (entry_of_row r)) g
             /\ List.length ds = List.length g)
     /\ (forall k : string,
           with_key Pandas.appeals_case_number (Str k) df = [] ->
           lookup k (build_mapping df) = None)
     /\ Permutation (map record_of_entry (flatten (build_mapping df)))
                    (filter (fun r => negb (isnull (app_no r))) df))
  /\ (forall f : Csv,
        (forall (k : string) (l : CsvRow),
            lines_with_key k f = [l] ->
            exists d : dict,
              lookup k (CsvToJson.mapping f) = Some (Single d)
              /\ line_of_object d = stripped_line l)
        /\ (forall (k : string) (g : Csv),
              lines_with_key k f = g -> 1 < List.length g ->
              exists ds : list dict,
                lookup k (CsvToJson.mapping f) = Some (Many ds)
                /\ map line_of_object ds = map stripped_line g)
        /\ (forall k : string,
              lines_with_key k f = [] -> lookup k (CsvToJson.mapping f) = None)
        /\ Forall (fun e => f_app_no (line_of_object (snd e)) = fst e)
                  (flatten (CsvToJson.mapping f))
        /\ Permutation (map (fun e => line_of_object (snd e))
                            (flatten (CsvToJson.mapping f)))
                       (map stripped_line f)).
Proof.
  split.
  - intro df. repeat split.
    + intros k r Hg. now rewrite lookup_build_mapping, Hg.
    + intros k g Hg Hlen.
      exists (map (fun r => snd (entry_of_row r)) g).
      rewrite lookup_build_mapping, Hg, length_map.
      destruct g as [|r1 [|r2 g]]; simpl in Hlen; try lia.
      repeat split; reflexivity.
    + intros k Hg. now rewrite lookup_build_mapping, Hg.
    + apply flatten_build_mapping_perm.
  - intro f. repeat split.
    + intros k l Hg. exists (CsvToJson.record_of l).
      rewrite lookup_converter, Hg. split; [reflexivity | apply line_of_record_of].
    + intros k g Hg Hlen. exists (map CsvToJson.record_of g).
      rewrite lookup_converter, Hg.
      destruct g as [|l1 [|l2 g]]; simpl in Hlen; try lia.
      split; [reflexivity|].
      rewrite map_map. apply map_ext. intro l. apply line_of_record_of.
    + intros k Hg. now rewrite lookup_converter, Hg.
    + apply Forall_forall. intros e He.
      apply (Permutation_in _ (flatten_converter_perm f)) in He.
      apply in_map_iff in He. destruct He as (l & <- & _). reflexivity.
    + apply converter_flatten_lines.
Qed.

Lemma grouping_collapse_law_as_read_back_witness :
  (with_key Pandas.appeals_case_number (Str "12/2020") Examples.shared_frame
   = [Examples.stored_2024_10]
   /\ lookup "12/2020" (build_mapping Examples.shared_frame)
      = Some (Single (snd (entry_of_row Examples.stored_2024_10))))
  /\ (1 < List.length (with_key Pandas.appeals_case_number (Str "7/2021")
                                Examples.shared_frame)
      /\ lookup "7/2021" (build_mapping Examples.shared_frame)
         = Some (Many [snd (entry_of_row (row_of_tuple Examples.scraped_2024_10));
                       snd (entry_of_row (row_of_tuple Examples.scraped_2024_13))]))
  /\ (1 < List.length (lines_with_key "12/2020" padded_file)
      /\ exists ds : list dict,
           lookup "12/2020" (CsvToJson.mapping padded_file) = Some (Many ds)
           /\ map line_of_object ds = map stripped_line padded_file).
Proof.
  destruct grouping_collapse_law_as_read_back as [Hinline Hconverter].
  destruct (Hinline Examples.shared_frame) as (H1 & HN & _).
  destruct (Hconverter padded_file) as (_ & HM & _).
  split; [split | split; split].
  - reflexivity.
  - exact (H1 "12/2020" Examples.stored_2024_10 eq_refl).
  - simpl. lia.
  - destruct (HN "7/2021" _ eq_refl (Nat.lt_succ_diag_r 1)) as (ds & Hl & Hds & _).
    rewrite Hl, Hds. reflexivity.
  - simpl. lia.
  - exact (HM "12/2020" padded_file eq_refl (Nat.lt_succ_diag_r 1)).
Defined.

(** The end-to-end example of the specification: of two scraped detail
    pages only the one with a resolved appeals number is stored, as a bare
    object under that number. *)
Example end_to_end :
  pipeline None [("2024-10", Examples.detail_a1, "12/2020", Examples.appeals_x, "dóm");
                 ("2024-11", Examples.detail_a2, "", "", "dóm")]
  = ([mkCsv "2024-10" Examples.detail_a1 "12/2020" Examples.appeals_x "dóm"],
     [("12/2020", Single [("supreme_case_number", Str "2024-10");
                          ("supreme_case_link", Str Examples.detail_a1);
                          ("appeals_case_link", Str Examples.appeals_x);
                          ("source_type", Str "dóm")])]).
Proof. reflexivity. Qed.

(* ===================================================================== *)
(** ** Where values are trimmed *)
(* ===================================================================== *)

Lemma trimmed_row_get (r : Row) (c : column) : trimmed_row r -> trimmed_cell (get c r).
Proof.
  unfold trimmed_row. intro H.
  apply (proj1 (Forall_forall _ cols) H c). destruct c; simpl; tauto.
Qed.

Lemma build_mapping_trimmed (df : DataFrame) :
  Forall trimmed_row df -> trimmed_mapping (build_mapping df).
Proof.
  intro Hdf. apply Forall_forall. intros kv Hkv.
  assert (forall r, In r df -> trimmed_row r) as Hrow
    by (apply Forall_forall; exact Hdf).
  split.
  - rewrite build_mapping_unfold in Hkv. apply in_map_iff in Hkv.
    destruct Hkv as (k & <- & Hk). rewrite group_entry_collapsed. simpl.
    apply group_keys_In in Hk. destruct Hk as (r & Hr & Hk).
    pose proof (trimmed_row_get r Pandas.appeals_case_number (Hrow r Hr)) as Ht.
    rewrite Hk in Ht. exact Ht.
  - apply Forall_forall. intros d Hd.
    destruct (build_mapping_members df kv d Hkv Hd) as (r & Hr & _ & ->).
    pose proof (Hrow r Hr) as Ht.
    unfold trimmed_dict, entry_of_row. simpl.
    repeat constructor; simpl.
    + exact (trimmed_row_get r supreme_case_number Ht).
    + exact (trimmed_row_get r supreme_case_link Ht).
    + exact (trimmed_row_get r appeals_case_link Ht).
    + exact (trimmed_row_get r source_type Ht).
Qed.

(** C8, as stated, fails: the dedupe compares the case numbers as they are,
    and the merged rows are written to the record file as they are.  A stored
    case number with a trailing blank is written back with the blank, next to
    a fresh record for the same case. *)
Lemma record_file_is_not_trimmed :
  ~ (forall (existing : option Csv) (all_rows : list tuple5),
       Forall trimmed_line (fst (pipeline existing all_rows)))
  /\ ~ (forall (existing : option Csv) (all_rows : list tuple5),
          NoDup (map (fun l => strip (f_sup_no l)) (fst (pipeline existing all_rows)))).
Proof.
  assert (fst (pipeline (Some [Examples.line_padded]) [Examples.scraped_2024_10])
          = [Examples.line_padded;
             mkCsv "2024-10" Examples.detail_a1 "7/2021" Examples.appeals_y "dóm"])
    as Hfile by (vm_compute; reflexivity).
  split; intro H;
    specialize (H (Some [Examples.line_padded]) [Examples.scraped_2024_10]);
    rewrite Hfile in H.
  - apply Forall_inv in H. destruct H as [H _].
    vm_compute in H. discriminate H.
  - cbn [map] in H. apply NoDup_cons_iff in H. destruct H as [H _].
    apply H. left. vm_compute. reflexivity.
Qed.

(** C8, amended. The non-empty filter tests the trimmed appeals case number
    of a scraped row, and every string of the lookup file, keys and field
    values, is trimmed.  The dedupe compares the supreme case numbers as they
    are (of the rows with one and the same untrimmed value the first is
    kept), and the record file holds the merged rows as they are. *)
Theorem trimming_is_for_the_filter_and_the_lookup :
  (forall t : tuple5,
     has_appeals_case (row_of_tuple t) = truthy (strip (tuple_app_no t)))
  /\ (forall (existing : option Csv) (all_rows : list tuple5),
        trimmed_mapping (snd (pipeline existing all_rows)))
  /\ (forall (prior : DataFrame) (all_rows : list tuple5) (k : cell),
        with_key supreme_case_number k (merge prior all_rows)
        = firstn 1 (with_key supreme_case_number k
                      (prior ++ select has_appeals_case (DataFrame_of all_rows))))
  /\ (forall (f : Csv) (all_rows : list tuple5),
        fst (pipeline (Some f) all_rows) = to_csv (merge (read_csv f) all_rows)).
Proof.
  repeat split.
  - exact has_appeals_case_scraped.
  - intros existing all_rows. unfold pipeline. simpl.
    apply build_mapping_trimmed, reload_trimmed.
  - intros prior all_rows k. rewrite merge_unfold. unfold drop_duplicates.
    now rewrite ddf_with_key.
Qed.

(** A stored appeals number padded with a no-break space and an ideographic
    space is filed under the bare number. *)
Example lookup_trims_unicode_padding :
  map fst (snd (pipeline (Some [padded_nbsp_line]) [])) = ["33/2019"]
  /\ ~ trimmed (f_app_no padded_nbsp_line).
Proof. split; [reflexivity | discriminate]. Qed.

(* ===================================================================== *)
(** ** Running the pipeline twice *)
(* ===================================================================== *)

Lemma to_csv_unfold (df : DataFrame) : to_csv df = map line_of df.
Proof. reflexivity. Qed.

Lemma read_csv_unfold (f : Csv) : read_csv f = map row_of_line f.
Proof. reflexivity. Qed.

Lemma read_cell_reads_back (s : string) : reads_back (read_cell s).
Proof.
  unfold reads_back.
  assert (read_cell s = if is_na s then NaN else Str s) as Hs by reflexivity.
  destruct (is_na s) eqn:Hna; rewrite Hs; simpl; [reflexivity|].
  unfold read_cell. now rewrite Hna.
Qed.

Lemma reads_back_rewrites (c : cell) : reads_back c -> rewrites c.
Proof. unfold reads_back, rewrites. now intros ->. Qed.

Lemma row_of_line_settled (l : CsvRow) : settled (row_of_line l).
Proof.
  unfold settled, row_of_line. simpl.
  repeat split; try apply reads_back_rewrites; apply read_cell_reads_back.
Qed.

Lemma settled_line (r : Row) :
  settled r -> line_of (row_of_line (line_of r)) = line_of r.
Proof.
  intros (H1 & H2 & H3 & H4 & H5). apply reads_back_rewrites in H1.
  unfold line_of, row_of_line. simpl. unfold rewrites in *.
  now rewrite H1, H2, H3, H4, H5.
Qed.

Lemma settled_key (r : Row) :
  settled r -> sup_no (row_of_line (line_of r)) = sup_no r.
Proof. intros (H1 & _). exact H1. Qed.

(** The dedupe loses no key. *)
Lemma ddf_keys (c : column) (df : DataFrame) :
  forall (seen : list cell) (r : Row), In r df ->
  In (get c r) seen \/ In (get c r) (map (get c) (drop_duplicates_from seen c df)).
Proof.
  induction df as [|x rest IH]; intros seen r Hr; simpl; [contradiction|].
  destruct (existsb (cell_eqb (get c x)) seen) eqn:Hx.
  - destruct Hr as [->|Hr]; [left; now apply seen_iff | now apply IH].
  - simpl. destruct Hr as [->|Hr]; [right; now left|].
    destruct (IH (get c x :: seen) r Hr) as [[Hk|Hk]|Hk].
    + right. left. exact Hk.
    + left. exact Hk.
    + right. right. exact Hk.
Qed.

Lemma filter_none {A} (f : A -> bool) (l : list A) :
  (forall x, In x l -> f x = false) -> filter f l = [].
Proof.
  induction l as [|x l IH]; intro H; simpl; [reflexivity|].
  rewrite (H x (or_introl eq_refl)). apply IH. intros y Hy. apply H. now right.
Qed.

(** Merging the record file of a run with the rows of that same run changes
    nothing, as long as every row that was kept is held faithfully by the
    file. *)
Lemma merge_again (prior : DataFrame) (all_rows : list tuple5) :
  Forall settled prior ->
  Forall settled (select has_appeals_case (DataFrame_of all_rows)) ->
  to_csv (merge (read_csv (to_csv (merge prior all_rows))) all_rows)
  = to_csv (merge prior all_rows).
Proof.
  intros Hprior Hfresh.
  set (fresh := select has_appeals_case (DataFrame_of all_rows)) in *.
  set (merged := merge prior all_rows).
  assert (Hsub : forall r, In r merged -> In r (prior ++ fresh)).
  { intros r Hr. unfold merged in Hr. rewrite merge_unfold in Hr.
    now apply drop_duplicates_In in Hr. }
  assert (Hall : forall r, In r (prior ++ fresh) -> settled r).
  { intros r Hr. apply in_app_or in Hr.
    destruct Hr as [Hr|Hr];
      [exact (proj1 (Forall_forall _ _) Hprior r Hr)
      | exact (proj1 (Forall_forall _ _) Hfresh r Hr)]. }
  assert (Hkeys : map (get supreme_case_number)
                      (map (fun r => row_of_line (line_of r)) merged)
                  = map (get supreme_case_number) merged).
  { rewrite map_map. apply map_ext_in. intros r Hr.
    apply settled_key, Hall, Hsub, Hr. }
  rewrite (merge_unfold (read_csv (to_csv merged)) all_rows). fold fresh.
  rewrite read_csv_unfold, (to_csv_unfold merged), map_map.
  rewrite drop_duplicates_app, Hkeys.
  rewrite drop_duplicates_fixed.
  - rewrite filter_none.
    + rewrite app_nil_r, !to_csv_unfold, map_map.
      apply map_ext_in. intros r Hr. apply settled_line, Hall, Hsub, Hr.
    + intros r Hr. apply negb_false_iff, seen_iff.
      apply drop_duplicates_In in Hr.
      unfold merged. rewrite merge_unfold. fold fresh.
      destruct (ddf_keys supreme_case_number (prior ++ fresh) [] r
                  (in_or_app _ _ r (or_intror Hr))) as [[]|Hk].
      exact Hk.
  - rewrite Hkeys. unfold merged. rewrite merge_unfold. apply ddf_NoDup.
Qed.

(** The second run of the pipeline reproduces the record file and the lookup
    of the first, when every scraped row that passes the filter is held
    faithfully by the file; a row is, when its supreme case number is not
    read back as a missing value. *)
Lemma second_run_reproduces_first (existing : option Csv) (all_rows : list tuple5) :
  Forall settled (select has_appeals_case (DataFrame_of all_rows)) ->
  pipeline (Some (fst (pipeline existing all_rows))) all_rows
  = pipeline existing all_rows.
Proof.
  intro Hfresh.
  assert (Hcsv : fst (pipeline (Some (fst (pipeline existing all_rows))) all_rows)
                 = fst (pipeline existing all_rows)).
  { unfold pipeline. cbn [fst].
    apply merge_again; [|exact Hfresh].
    destruct existing as [f|]; [|constructor].
    rewrite read_csv_unfold. apply Forall_forall. intros r Hr.
    apply in_map_iff in Hr. destruct Hr as (l & <- & _).
    apply row_of_line_settled. }
  unfold pipeline in *. cbn [fst snd] in *. now rewrite Hcsv.
Qed.

Example second_run_on_the_toy_web :
  pipeline (Some (fst (pipeline None [Examples.scraped_2024_10; Examples.scraped_unresolved;
                                        Examples.scraped_2024_13])))
           [Examples.scraped_2024_10; Examples.scraped_unresolved; Examples.scraped_2024_13]
  = pipeline None [Examples.scraped_2024_10; Examples.scraped_unresolved;
                   Examples.scraped_2024_13].
Proof.
  apply second_run_reproduces_first.
  repeat constructor.
Qed.

(** C5, at a failing input.  A detail page on which no supreme case number
    was found is stored with an empty field; read back, the field is a
    missing value, which is not the empty string of the fresh scrape, so the
    second run stores the same page a second time and turns its bare object
    into a list of two. *)
Theorem second_run_duplicates_nameless_record :
  let first := pipeline None [Examples.scraped_nameless_1] in
  let second := pipeline (Some (fst first)) [Examples.scraped_nameless_1] in
  List.length (fst first) = 1
  /\ List.length (fst second) = 2
  /\ fst second = fst first ++ fst first
  /\ lookup "12/2020" (snd first)
     = Some (Single (snd (entry_of_row (mkRow NaN (Str Examples.detail_a1) (Str "12/2020")
                                              (Str Examples.appeals_x) (Str "dóm")))))
  /\ (exists d, lookup "12/2020" (snd second) = Some (Many [d; d]))
  /\ second <> first.
Proof.
  vm_compute. repeat split; try reflexivity.
  - eexists. reflexivity.
  - discriminate.
Qed.

(* ===================================================================== *)
(** ** Records without a supreme case number *)
(* ===================================================================== *)

Lemma stored_supreme_number_is_never_empty_string (f : Csv) :
  with_key supreme_case_number (Str "") (read_csv f) = [].
Proof.
  unfold with_key. apply filter_none. intros r Hr.
  unfold read_csv in Hr. apply in_map_iff in Hr. destruct Hr as (l & <- & _).
  cbn [get sup_no]. unfold read_cell.
  destruct (is_na (f_sup_no l)) eqn:Hna; [reflexivity|].
  cbn [cell_eqb]. apply String.eqb_neq. intro Hl. rewrite Hl in Hna.
  discriminate Hna.
Qed.

(** C10, at a failing input.  The record file holds the line that an earlier
    run left for a detail page without a supreme case number; the scrape
    brings a second page without one.  Both records of the concatenated
    sequence have an empty supreme_case_number, the stored one as a missing
    value and the scraped one as the empty string, and both are in the merged
    set and in the file written from it. *)
Theorem stored_and_scraped_nameless_records_both_survive :
  let stored := read_csv [line_nameless] in
  let fresh := select has_appeals_case (DataFrame_of [Examples.scraped_nameless_2]) in
  let merged := merge stored [Examples.scraped_nameless_2] in
  map sup_no (stored ++ fresh) = [NaN; Str ""]
  /\ merged = stored ++ fresh
  /\ map sup_link merged = [Str Examples.detail_a1; Str Examples.detail_a2]
  /\ map f_sup_no (to_csv merged) = [""; ""].
Proof. repeat split; reflexivity. Qed.

(* ===================================================================== *)
(** ** Fetch failures *)
(* ===================================================================== *)

Lemma for_each_raises {A B} (f : A -> result B) (l : list A) (x : A) :
  In x l -> f x = Raise -> for_each f l = Raise.
Proof.
  induction l as [|y l IH]; intros Hin Hx; simpl; [contradiction|].
  destruct (f y) as [b|] eqn:Hy; simpl; [|reflexivity].
  destruct Hin as [->|Hin]; [congruence|].
  now rewrite (IH Hin Hx).
Qed.

Lemma scrape_supreme_raises (E : Env) (url : string) :
  requests_get E url = Raise -> scrape_supreme E url = Raise.
Proof. intro H. unfold scrape_supreme. now rewrite H. Qed.

Lemma scrape_as_raises (E : Env) (kind url : string) :
  requests_get E url = Raise -> scrape_as E kind url = Raise.
Proof. intro H. unfold scrape_as. now rewrite (scrape_supreme_raises E url H). Qed.

Lemma scrape_all_raises (E : Env) (url : string) :
  requests_get E url = Raise ->
  (exists links, get_verdict_links E = Ok links /\ In url links)
  \/ (exists links, get_decision_links E = Ok links /\ In url links) ->
  scrape_all E = Raise.
Proof.
  intros Hurl [(links & Hl & Hin)|(links & Hl & Hin)]; unfold scrape_all.
  - rewrite Hl. simpl.
    now rewrite (for_each_raises (scrape_as E "dóm") links url Hin
                   (scrape_as_raises E "dóm" url Hurl)).
  - destruct (get_verdict_links E) as [vl|]; simpl; [|reflexivity].
    destruct (for_each (scrape_as E "dóm") vl); simpl; [|reflexivity].
    rewrite Hl. simpl.
    now rewrite (for_each_raises (scrape_as E "ákvörðun") links url Hin
                   (scrape_as_raises E "ákvörðun" url Hurl)).
Qed.

(** C4, as stated, fails for the detail page: [scrape_supreme] fetches it
    outside any [try], so the exception leaves [scrape_supreme] and [main];
    no record is produced and the run ends without writing a file. *)
Lemma detail_fetch_failure_aborts_run :
  ~ (forall (E : Env) (url : string),
       requests_get E url = Raise -> exists t, scrape_supreme E url = Ok t)
  /\ (get_verdict_links Examples.web_detail_down
      = Ok [Examples.detail_a1; Examples.detail_a2]
      /\ requests_get Examples.web_detail_down Examples.detail_a1 = Raise
      /\ main Examples.web_detail_down Examples.no_files = Raise).
Proof.
  split; [|repeat split; reflexivity].
  intro H.
  destruct (H Examples.web_detail_down Examples.detail_a1 eq_refl) as (t & Ht).
  vm_compute in Ht. discriminate Ht.
Qed.

(** C4, amended. A failed fetch of the cross-reference page is absorbed:
    [appeals_case_number] returns the empty string, the record proceeds with
    an empty appeals identifier and the merge then drops it.  A failed fetch
    of a detail page is not absorbed: it leaves [scrape_supreme], and when
    the page is one of the discovered links it ends [main] before anything is
    written, so the files stay as they were. *)
Theorem cross_reference_failure_is_absorbed_detail_failure_is_not :
  (forall (E : Env) (url : string),
     requests_get E url = Raise -> appeals_case_number E url = Ok "")
  /\ (forall (E : Env) (url : string) (resp : response) (link : string),
        requests_get E url = Ok resp ->
        APPEALS_URL_RE_search E (text resp) = Some link ->
        truthy link = true ->
        (netloc_lower E link =? "landsrettur.is")
        || endswith (netloc_lower E link) ".landsrettur.is" = true ->
        requests_get E link = Raise ->
        exists sup : string,
          scrape_supreme E url = Ok (sup, url, "", link)
          /\ forall (kind : string) (prior : DataFrame) (before after : list tuple5),
               merge prior (before ++ (sup, url, "", link, kind) :: after)
               = merge prior (before ++ after))
  /\ (forall (E : Env) (url : string),
        requests_get E url = Raise -> scrape_supreme E url = Raise)
  /\ (forall (E : Env) (fs : Files) (url : string),
        requests_get E url = Raise ->
        (exists links, get_verdict_links E = Ok links /\ In url links)
        \/ (exists links, get_decision_links E = Ok links /\ In url links) ->
        main E fs = Raise /\ run E fs = fs).
Proof.
  repeat split.
  - intros E url H. unfold appeals_case_number. now rewrite H.
  - intros E url resp link Hurl Hlink Htruthy Hdom Hdown.
    eexists. split.
    + unfold scrape_supreme, first_appeals_link, appeals_case_number.
      rewrite Hurl. simpl. rewrite Hlink, Htruthy, Hdom, Hdown. reflexivity.
    + intros kind prior before after.
      now apply merge_skips_blank_row.
  - exact scrape_supreme_raises.
  - unfold main. now rewrite (scrape_all_raises E url H H0).
  - unfold run, main. now rewrite (scrape_all_raises E url H H0).
Qed.

Lemma cross_reference_failure_is_absorbed_detail_failure_is_not_witness :
  (requests_get Examples.web_appeals_down Examples.appeals_x = Raise
   /\ appeals_case_number Examples.web_appeals_down Examples.appeals_x = Ok "")
  /\ (requests_get Examples.web_detail_down Examples.detail_a1 = Raise
      /\ scrape_supreme Examples.web_detail_down Examples.detail_a1 = Raise).
Proof.
  destruct cross_reference_failure_is_absorbed_detail_failure_is_not
    as (Habsorbed & _ & Hdetail & _).
  split; split.
  - reflexivity.
  - exact (Habsorbed Examples.web_appeals_down Examples.appeals_x eq_refl).
  - reflexivity.
  - exact (Hdetail Examples.web_detail_down Examples.detail_a1 eq_refl).
Defined.

(** With the appeals court down, every record is scraped with an empty
    appeals number and nothing is stored; the run itself succeeds. *)
Example appeals_court_down :
  main Examples.web_appeals_down Examples.no_files = Ok (mkFiles (Some []) (Some [])).
Proof. reflexivity. Qed.

(* ===================================================================== *)
(** ** Link Discovery *)
(* ===================================================================== *)

Lemma sorted_set_spec (urls : list string) :
  StronglySorted lex_le (sorted (set urls))
  /\ NoDup (sorted (set urls))
  /\ (forall u, In u (sorted (set urls)) <-> In u urls)
  /\ (forall enumeration : list string,
        NoDup enumeration ->
        (forall u, In u enumeration <-> In u (sorted (set urls))) ->
        sorted enumeration = sorted (set urls)).
Proof.
  repeat split.
  - apply sorted_StronglySorted.
  - apply sorted_NoDup, set_NoDup.
  - rewrite sorted_In, set_In. tauto.
  - rewrite sorted_In, set_In. tauto.
  - intros l Hnd Hsame.
    apply StronglySorted_unique; try apply sorted_StronglySorted.
    rewrite sorted_perm.
    apply NoDup_Permutation; [assumption | apply sorted_NoDup, set_NoDup | exact Hsame].
Qed.

(** C9, as stated, fails for the verdicts source: [get_verdict_links] keeps
    every href under /domar/_domur/, the bare prefix included; only
    [get_decision_links] leaves its prefix root out. *)
Lemma verdict_links_keep_prefix_root :
  ~ (forall (E : Env) (links : list string),
       get_verdict_links E = Ok links ->
       forall u : string, In u links ->
         exists href : string,
           In href (listing_hrefs E (base ++ "/domar/")%string)
           /\ startswith href "/domar/_domur/" = true
           /\ href <> "/domar/_domur/"
           /\ u = urljoin E base href).
Proof.
  intro H.
  destruct (H Examples.web_with_prefix_root
              ["https://www.haestirettur.is/domar/_domur/"] eq_refl
              "https://www.haestirettur.is/domar/_domur/" (or_introl eq_refl))
    as (href & Hin & _ & Hne & _).
  vm_compute in Hin. destruct Hin as [Hin|[]]. congruence.
Qed.

(** C9, amended. When the listing page is fetched without an error status,
    Link Discovery returns the lexicographically sorted list of the distinct
    URLs that [urljoin] resolves from the hrefs under the source's prefix:
    for the decisions source without the prefix root /akvardanir/ itself, for
    the verdicts source every href under /domar/_domur/.  The list is the
    same for whatever enumeration of that set of URLs is sorted. *)
Theorem link_discovery_sorted_set :
  forall E : Env,
    (forall resp : response,
        requests_get E (base ++ "/domar/")%string = Ok resp ->
        raise_for_status resp = Ok tt ->
        exists links : list string,
          get_verdict_links E = Ok links
          /\ StronglySorted lex_le links /\ NoDup links
          /\ (forall u : string,
                In u links <->
                exists href : string,
                  In href (listing_hrefs E (base ++ "/domar/")%string)
                  /\ startswith href "/domar/_domur/" = true
                  /\ u = urljoin E base href)
          /\ (forall enumeration : list string,
                NoDup enumeration ->
                (forall u, In u enumeration <-> In u links) ->
                sorted enumeration = links))
    /\ (forall resp : response,
          requests_get E (base ++ "/akvardanir/")%string = Ok resp ->
          raise_for_status resp = Ok tt ->
          exists links : list string,
            get_decision_links E = Ok links
            /\ StronglySorted lex_le links /\ NoDup links
            /\ (forall u : string,
                  In u links <->
                  exists href : string,
                    In href (listing_hrefs E (base ++ "/akvardanir/")%string)
                    /\ startswith href "/akvardanir/" = true
                    /\ href <> "/akvardanir/"
                    /\ u = urljoin E base href)
            /\ (forall enumeration : list string,
                  NoDup enumeration ->
                  (forall u, In u enumeration <-> In u links) ->
                  sorted enumeration = links)).
Proof.
  intro E. split; intros resp Hget Hstatus.
  - eexists. unfold get_verdict_links. cbv zeta. rewrite Hget. cbn [bind].
    rewrite Hstatus. cbn [bind]. split; [reflexivity|].
    match goal with
    | |- context [sorted (set ?urls)] =>
        destruct (sorted_set_spec urls) as (Hs & Hnd & Hin & Hdet)
    end.
    repeat split; try assumption.
    + intro Hu. apply Hin in Hu. apply in_map_iff in Hu.
      destruct Hu as (href & <- & Hhref). apply filter_In in Hhref.
      exists href. unfold listing_hrefs. rewrite Hget. tauto.
    + intros (href & Hhref & Hpre & ->). apply Hin. apply in_map.
      apply filter_In. unfold listing_hrefs in Hhref. rewrite Hget in Hhref.
      tauto.
  - eexists. unfold get_decision_links. cbv zeta. rewrite Hget. cbn [bind].
    rewrite Hstatus. cbn [bind]. split; [reflexivity|].
    match goal with
    | |- context [sorted (set ?urls)] =>
        destruct (sorted_set_spec urls) as (Hs & Hnd & Hin & Hdet)
    end.
    repeat split; try assumption.
    + intro Hu. apply Hin in Hu. apply in_map_iff in Hu.
      destruct Hu as (href & <- & Hhref). apply filter_In in Hhref.
      destruct Hhref as [Hhref Hrule]. apply andb_true_iff in Hrule.
      destruct Hrule as [Hpre Hroot].
      exists href. unfold listing_hrefs. rewrite Hget.
      repeat split; try assumption.
      intro Heq. rewrite Heq in Hroot. discriminate Hroot.
    + intros (href & Hhref & Hpre & Hroot & ->). apply Hin. apply in_map.
      apply filter_In. unfold listing_hrefs in Hhref. rewrite Hget in Hhref.
      split; [assumption|]. rewrite Hpre. simpl.
      apply negb_true_iff. now apply String.eqb_neq.
Qed.

Lemma link_discovery_sorted_set_witness :
  (requests_get Examples.web_up (base ++ "/domar/")%string
   = Ok (Response 200 "verdict listing")
   /\ raise_for_status (Response 200 "verdict listing") = Ok tt)
  /\ exists links : list string,
       get_verdict_links Examples.web_up = Ok links
       /\ StronglySorted lex_le links /\ NoDup links.
Proof.
  split; [split; reflexivity|].
  destruct (proj1 (link_discovery_sorted_set Examples.web_up)
              (Response 200 "verdict listing") eq_refl eq_refl)
    as (links & Hl & Hs & Hnd & _).
  exists links. repeat split; assumption.
Defined.

Example verdict_links_of_the_toy_web :
  get_verdict_links Examples.web_up = Ok [Examples.detail_a1; Examples.detail_a2]
  /\ get_decision_links Examples.web_up
     = Ok ["https://www.haestirettur.is/akvardanir/?id=b1"].
Proof. split; reflexivity. Qed.

(* ===================================================================== *)
(** ** The Cross-Reference Resolver and the Identifier Extractor *)
(* ===================================================================== *)


Lemma first_since_2018_spec (E : Env) (matches : list (string * string)) :
  (first_since_2018 E matches = "" /\ Forall (before_cutoff E) matches)
  \/ exists before num year after,
       matches = before ++ (num, year) :: after
       /\ Forall (before_cutoff E) before
       /\ (2018 <= int E year)%Z
       /\ first_since_2018 E matches = (num ++ "/" ++ year)%string.
Proof.
  induction matches as [|[num year] rest IH]; simpl.
  - left. split; [reflexivity | constructor].
  - destruct (Z.leb_spec 2018 (int E year)) as [Hge|Hlt].
    + right. exists [], num, year, rest. repeat split; [constructor | assumption].
    + destruct IH as [[Hnone Hold]|(before & n & y & after & -> & Hold & Hge & Hres)].
      * left. split; [assumption|]. constructor; assumption.
      * right. exists ((num, year) :: before), n, y, after.
        repeat split; try assumption. constructor; assumption.
Qed.

(** [appeals_case_number] never raises.  It returns "num/year" for the first
    match, in document order, whose year is 2018 or later, and the empty
    string when the fetch fails or every match is older. *)
Theorem appeals_case_number_first_recent_match :
  forall (E : Env) (url : string),
    exists s : string,
      appeals_case_number E url = Ok s
      /\ ((s = ""
           /\ (requests_get E url = Raise
               \/ exists resp, requests_get E url = Ok resp
                    /\ Forall (before_cutoff E) (APPEALS_NO_RE_findall E (text resp))))
          \/ exists resp before num year after,
               requests_get E url = Ok resp
               /\ APPEALS_NO_RE_findall E (text resp) = before ++ (num, year) :: after
               /\ Forall (before_cutoff E) before
               /\ (2018 <= int E year)%Z
               /\ s = (num ++ "/" ++ year)%string).
Proof.
  intros E url. unfold appeals_case_number.
  destruct (requests_get E url) as [resp|].
  - eexists. split; [reflexivity|].
    destruct (first_since_2018_spec E (APPEALS_NO_RE_findall E (text resp)))
      as [[Hnone Hold]|(before & num & year & after & Hm & Hold & Hge & Hres)].
    + left. split; [assumption|]. right. exists resp. now split.
    + right. exists resp, before, num, year, after. repeat split; assumption.
  - exists "". split; [reflexivity|]. left. split; [reflexivity | now left].
Qed.

Example appeals_case_number_skips_2017 :
  appeals_case_number Examples.web_up Examples.appeals_x = Ok "12/2020"
  /\ appeals_case_number Examples.web_up Examples.appeals_y = Ok "".
Proof. split; reflexivity. Qed.

Lemma truthy_false (s : string) : truthy s = false -> s = "".
Proof.
  unfold truthy. intro H. apply negb_false_iff in H. now apply String.eqb_eq.
Qed.

(** What [scrape_supreme] returns, when it returns: the link is the URL it
    was given, the supreme number is the first match of the page or empty,
    and the appeals link is either empty, with an empty appeals number, or
    the link found on the page, with an accepted host and the appeals number
    that the Cross-Reference Resolver gives for it.  A link with another host
    leaves no trace in the record. *)
Theorem scrape_supreme_result_shape :
  forall (E : Env) (url sup link app_no app_link : string),
    scrape_supreme E url = Ok (sup, link, app_no, app_link) ->
    link = url
    /\ (exists resp : response,
          requests_get E url = Ok resp
          /\ sup = hd "" (SUPREME_RE_findall E (text resp))
          /\ ((app_link = "" /\ app_no = "")
              \/ (APPEALS_URL_RE_search E (text resp) = Some app_link
                  /\ app_link <> ""
                  /\ accepted_domain E app_link = true
                  /\ appeals_case_number E app_link = Ok app_no))).
Proof.
  intros E url sup link app_no app_link. unfold scrape_supreme.
  destruct (requests_get E url) as [resp|] eqn:Hget; [|discriminate].
  cbn [bind]. unfold first_appeals_link.
  assert (Hsup : match SUPREME_RE_findall E (text resp) with
                 | [] => ""
                 | m :: _ => m
                 end = hd "" (SUPREME_RE_findall E (text resp)))
    by now destruct (SUPREME_RE_findall E (text resp)).
  rewrite Hsup.
  destruct (APPEALS_URL_RE_search E (text resp)) as [m|] eqn:Hm.
  - destruct (truthy m) eqn:Htr.
    + destruct ((netloc_lower E m =? "landsrettur.is")
                || endswith (netloc_lower E m) ".landsrettur.is") eqn:Hdom.
      * destruct (appeals_case_number E m) as [n|] eqn:Hn; [|discriminate].
        cbn [bind]. intro H. inversion H; subst.
        split; [reflexivity|]. exists resp. repeat split. right.
        repeat split; try assumption.
        intros ->. discriminate Htr.
      * intro H. inversion H; subst.
        split; [reflexivity|]. exists resp. repeat split. now left.
    + intro H. inversion H; subst.
      split; [reflexivity|]. exists resp. repeat split. left.
      split; [now apply truthy_false | reflexivity].
  - rewrite (eq_refl : truthy "" = false). intro H. inversion H; subst.
    split; [reflexivity|]. exists resp. repeat split. now left.
Qed.

Lemma scrape_supreme_result_shape_witness :
  scrape_supreme Examples.web_up Examples.detail_a1
  = Ok ("2024-10", Examples.detail_a1, "12/2020", Examples.appeals_x)
  /\ accepted_domain Examples.web_up Examples.appeals_x = true.
Proof.
  split; [reflexivity|].
  destruct (scrape_supreme_result_shape Examples.web_up Examples.detail_a1
              "2024-10" Examples.detail_a1 "12/2020" Examples.appeals_x eq_refl)
    as (_ & resp & _ & _ & [[Hempty _]|(_ & _ & Hdom & _)]).
  - discriminate Hempty.
  - exact Hdom.
Defined.

(* ===================================================================== *)
(** ** The scraping loop of [main] *)
(* ===================================================================== *)

Lemma raise_for_status_error (resp : response) :
  (400 <= status_code resp < 600)%Z -> raise_for_status resp = Raise.
Proof.
  intros [Hlo Hhi]. unfold raise_for_status.
  apply Z.leb_le in Hlo. apply Z.ltb_lt in Hhi. now rewrite Hlo, Hhi.
Qed.

Lemma get_verdict_links_raises (E : Env) :
  listing_fails E (base ++ "/domar/")%string -> get_verdict_links E = Raise.
Proof.
  unfold get_verdict_links. cbv zeta.
  intros [Hget|(resp & Hget & Hstatus)]; rewrite Hget; cbn [bind];
    [reflexivity|].
  now rewrite (raise_for_status_error resp Hstatus).
Qed.

Lemma get_decision_links_raises (E : Env) :
  listing_fails E (base ++ "/akvardanir/")%string -> get_decision_links E = Raise.
Proof.
  unfold get_decision_links. cbv zeta.
  intros [Hget|(resp & Hget & Hstatus)]; rewrite Hget; cbn [bind];
    [reflexivity|].
  now rewrite (raise_for_status_error resp Hstatus).
Qed.

Lemma scrape_all_listing_fails (E : Env) :
  listing_fails E (base ++ "/domar/")%string
  \/ listing_fails E (base ++ "/akvardanir/")%string ->
  scrape_all E = Raise.
Proof.
  intros [H|H]; unfold scrape_all.
  - now rewrite (get_verdict_links_raises E H).
  - destruct (get_verdict_links E) as [vl|]; cbn [bind]; [|reflexivity].
    destruct (for_each (scrape_as E "dóm") vl); cbn [bind]; [|reflexivity].
    now rewrite (get_decision_links_raises E H).
Qed.

(** A listing page that cannot be fetched, or that answers with a 4xx or 5xx
    status, is fatal: [main] raises whatever the other pages do, and the two
    files stay as they were. *)
Theorem listing_failure_is_fatal :
  forall (E : Env) (fs : Files),
    listing_fails E (base ++ "/domar/")%string
    \/ listing_fails E (base ++ "/akvardanir/")%string ->
    main E fs = Raise /\ run E fs = fs.
Proof.
  intros E fs H. unfold run, main.
  now rewrite (scrape_all_listing_fails E H).
Qed.

Lemma listing_failure_is_fatal_witness :
  listing_fails web_decisions_503 (base ++ "/akvardanir/")%string
  /\ main web_decisions_503 (mkFiles (Some plain_file) None) = Raise
  /\ run web_decisions_503 (mkFiles (Some plain_file) None)
     = mkFiles (Some plain_file) None.
Proof.
  assert (listing_fails web_decisions_503 (base ++ "/akvardanir/")%string) as H.
  { right. exists (Response 503 "Service Unavailable").
    split; [reflexivity | simpl; lia]. }
  split; [exact H|].
  exact (listing_failure_is_fatal web_decisions_503
           (mkFiles (Some plain_file) None) (or_intror H)).
Defined.

Lemma scrape_as_answers (E : Env) (kind url : string) :
  requests_get E url <> Raise ->
  exists t : tuple5,
    scrape_as E kind url = Ok t /\ tuple_sup_link t = url /\ tuple_kind t = kind.
Proof.
  intro Hget. unfold scrape_as, scrape_supreme.
  destruct (requests_get E url) as [resp|]; [|congruence]. cbn [bind].
  destruct (truthy (first_appeals_link E (text resp))).
  - destruct ((netloc_lower E (first_appeals_link E (text resp)) =? "landsrettur.is")
              || endswith (netloc_lower E (first_appeals_link E (text resp)))
                          ".landsrettur.is").
    + unfold appeals_case_number.
      destruct (requests_get E (first_appeals_link E (text resp)));
        cbn [bind]; eexists; repeat split.
    + cbn [bind]. eexists. repeat split.
  - cbn [bind]. eexists. repeat split.
Qed.

Lemma for_each_scrape_as (E : Env) (kind : string) (links : list string) :
  (forall url, In url links -> requests_get E url <> Raise) ->
  exists rows : list tuple5,
    for_each (scrape_as E kind) links = Ok rows
    /\ map tuple_sup_link rows = links
    /\ map tuple_kind rows = repeat kind (List.length links).
Proof.
  induction links as [|url links IH]; intro Hall.
  - exists []. repeat split.
  - destruct (scrape_as_answers E kind url (Hall url (or_introl eq_refl)))
      as (t & Ht & Hlink & Hkind).
    destruct IH as (rows & Hrows & Hlinks & Hkinds);
      [intros u Hu; apply Hall; now right|].
    exists (t :: rows). simpl. rewrite Ht. cbn [bind]. rewrite Hrows. cbn [bind].
    repeat split; simpl; congruence.
Qed.

(** When both listings are fetched and every discovered detail page
    answers, the scraping loop does not raise and yields exactly one row per
    discovered link, in the order of the links: the verdicts first, tagged
    dóm, then the decisions, tagged ákvörðun, each row carrying the URL of
    its detail page.  What the appeals court answers plays no part. *)
Theorem scrape_all_one_row_per_link :
  forall (E : Env) (verdict_links decision_links : list string),
    get_verdict_links E = Ok verdict_links ->
    get_decision_links E = Ok decision_links ->
    (forall url, In url (verdict_links ++ decision_links) ->
                 requests_get E url <> Raise) ->
    exists rows : list tuple5,
      scrape_all E = Ok rows
      /\ map tuple_sup_link rows = verdict_links ++ decision_links
      /\ map tuple_kind rows
         = repeat "dóm" (List.length verdict_links)
           ++ repeat "ákvörðun" (List.length decision_links)
      /\ forall fs : Files, exists csv mapping,
           main E fs = Ok (mkFiles (Some csv) (Some mapping)).
Proof.
  intros E vl dl Hvl Hdl Hall.
  destruct (for_each_scrape_as E "dóm" vl) as (rv & Hrv & Hlv & Hkv);
    [intros u Hu; apply Hall, in_or_app; now left|].
  destruct (for_each_scrape_as E "ákvörðun" dl) as (rd & Hrd & Hld & Hkd);
    [intros u Hu; apply Hall, in_or_app; now right|].
  assert (scrape_all E = Ok (rv ++ rd)) as Hall_rows.
  { unfold scrape_all. rewrite Hvl. cbn [bind]. rewrite Hrv. cbn [bind].
    rewrite Hdl. cbn [bind]. rewrite Hrd. reflexivity. }
  exists (rv ++ rd). rewrite !map_app, Hlv, Hld, Hkv, Hkd.
  repeat split; try assumption.
  intro fs. unfold main. rewrite Hall_rows. cbn [bind].
  eexists. eexists. reflexivity.
Qed.

Lemma scrape_all_one_row_per_link_witness :
  (forall url,
      In url ([Examples.detail_a1; Examples.detail_a2]
              ++ ["https://www.haestirettur.is/akvardanir/?id=b1"]) ->
      requests_get Examples.web_appeals_down url <> Raise)
  /\ exists rows : list tuple5,
       scrape_all Examples.web_appeals_down = Ok rows
       /\ map tuple_kind rows = ["dóm"; "dóm"; "ákvörðun"].
Proof.
  assert (forall url,
             In url ([Examples.detail_a1; Examples.detail_a2]
                     ++ ["https://www.haestirettur.is/akvardanir/?id=b1"]) ->
             requests_get Examples.web_appeals_down url <> Raise) as Hall.
  { intros url [<-|[<-|[<-|[]]]]; discriminate. }
  split; [exact Hall|].
  destruct (scrape_all_one_row_per_link Examples.web_appeals_down
              [Examples.detail_a1; Examples.detail_a2]
              ["https://www.haestirettur.is/akvardanir/?id=b1"]
              eq_refl eq_refl Hall)
    as (rows & Hrows & _ & Hkinds & _).
  exists rows. split; assumption.
Defined.

(* ===================================================================== *)
(** ** More on the merge *)
(* ===================================================================== *)

(** The merge repeats no supreme case number and loses none: the keys of the
    merged frame are distinct, and they are the keys of the prior rows and
    of the scraped rows that pass the filter. *)
Theorem merge_keys_unique_and_complete :
  forall (prior : DataFrame) (all_rows : list tuple5),
    NoDup (map sup_no (merge prior all_rows))
    /\ forall k : cell,
         In k (map sup_no (merge prior all_rows))
         <-> In k (map sup_no (prior ++ select has_appeals_case (DataFrame_of all_rows))).
Proof.
  intros prior all_rows. rewrite merge_unfold. split.
  - exact (ddf_NoDup supreme_case_number _ []).
  - intro k. split; intro Hk; apply in_map_iff in Hk; destruct Hk as (r & <- & Hr).
    + apply in_map. now apply drop_duplicates_In in Hr.
    + destruct (ddf_keys supreme_case_number _ [] r Hr) as [[]|H]. exact H.
Qed.

Lemma drop_duplicates_absorbs (c : column) (l extra : DataFrame) :
  (forall r, In r extra -> In (get c r) (map (get c) l)) ->
  drop_duplicates c (drop_duplicates c l ++ extra) = drop_duplicates c l.
Proof.
  intro Hknown. rewrite drop_duplicates_app.
  rewrite (drop_duplicates_fixed c (drop_duplicates c l) (ddf_NoDup c l [])).
  rewrite filter_none; [apply app_nil_r|].
  intros r Hr. apply negb_false_iff, seen_iff.
  apply drop_duplicates_In in Hr.
  apply Hknown in Hr. apply in_map_iff in Hr. destruct Hr as (r' & Hk & Hr').
  rewrite <- Hk.
  destruct (ddf_keys c l [] r' Hr') as [[]|H]. exact H.
Qed.

(** In memory the merge is idempotent: merging the same scraped rows into
    the merged frame once more changes nothing. *)
Theorem merge_twice :
  forall (prior : DataFrame) (all_rows : list tuple5),
    merge (merge prior all_rows) all_rows = merge prior all_rows.
Proof.
  intros prior all_rows.
  rewrite (merge_unfold (merge prior all_rows) all_rows), (merge_unfold prior all_rows).
  apply drop_duplicates_absorbs.
  intros r Hr. apply in_map, in_or_app. now right.
Qed.




(* ===================================================================== *)
(** ** More on the two lookup builders *)
(* ===================================================================== *)

Lemma build_mapping_keys (df : DataFrame) :
  map fst (build_mapping df) = group_keys Pandas.appeals_case_number df.
Proof.
  rewrite build_mapping_unfold, map_map.
  rewrite (map_ext _ (fun k => k)) by (intro k; now rewrite group_entry_collapsed).
  apply map_id.
Qed.

(** The keys of the lookup that the pipeline builds are the appeals case
    numbers that occur in the frame, each once, in lexicographic order. *)
Theorem build_mapping_keys_sorted :
  forall df : DataFrame,
    StronglySorted lex_le (map fst (build_mapping df))
    /\ NoDup (map fst (build_mapping df))
    /\ forall k : string,
         In k (map fst (build_mapping df))
         <-> exists r : Row, In r df /\ app_no r = Str k.
Proof.
  intro df. rewrite build_mapping_keys. repeat split.
  - apply sorted_StronglySorted.
  - apply group_keys_NoDup.
  - intro H. now apply group_keys_In in H.
  - intro H. now apply group_keys_In.
Qed.

Lemma first_seen_from_same_seen (l : list string) :
  forall s1 s2 : list string,
    (forall k, In k s1 <-> In k s2) ->
    first_seen_from s1 l = first_seen_from s2 l.
Proof.
  induction l as [|k l IH]; intros s1 s2 H; simpl; [reflexivity|].
  assert (existsb (String.eqb k) s1 = existsb (String.eqb k) s2) as ->.
  { apply eq_true_iff_eq. rewrite !existsb_exists.
    split; intros (x & Hx & Hk); exists x; split; try assumption; now apply H. }
  destruct (existsb (String.eqb k) s2); [now apply IH|].
  f_equal. apply IH. intro x. simpl. rewrite H. tauto.
Qed.

Lemma append_to_keys (k : string) (d : dict) (g : list (string * list dict)) :
  map fst (CsvToJson.append_to k d g)
  = if existsb (String.eqb k) (map fst g) then map fst g else map fst g ++ [k].
Proof.
  induction g as [|[k' ds] g IH]; simpl; [reflexivity|].
  destruct (String.eqb_spec k k') as [<-|Hne]; simpl; [reflexivity|].
  rewrite IH. now destruct (existsb (String.eqb k) (map fst g)).
Qed.

Lemma grouped_keys (f : Csv) :
  forall g : list (string * list dict),
    map fst (fold_left (fun g row => CsvToJson.append_to (strip (f_app_no row))
                                       (CsvToJson.record_of row) g) f g)
    = map fst g
      ++ first_seen_from (map fst g) (map (fun l => strip (f_app_no l)) f).
Proof.
  induction f as [|l f IH]; intro g; simpl; [now rewrite app_nil_r|].
  rewrite IH, append_to_keys.
  destruct (existsb (String.eqb (strip (f_app_no l))) (map fst g)); [reflexivity|].
  rewrite <- app_assoc. simpl. do 2 f_equal.
  apply first_seen_from_same_seen.
  intro k. rewrite in_app_iff. simpl. tauto.
Qed.

Lemma first_seen_from_spec (l : list string) :
  forall seen : list string,
    NoDup (first_seen_from seen l)
    /\ forall k, In k (first_seen_from seen l) <-> In k l /\ ~ In k seen.
Proof.
  induction l as [|x l IH]; intro seen; simpl.
  - split; [constructor | tauto].
  - destruct (existsb (String.eqb x) seen) eqn:Hx.
    + destruct (IH seen) as [Hnd Hin]. split; [assumption|].
      apply existsb_exists in Hx. destruct Hx as (y & Hy & Hxy).
      apply String.eqb_eq in Hxy. subst y.
      intro k. rewrite Hin. split; [tauto|].
      intros [[->|Hk] Hout]; [contradiction | tauto].
    + destruct (IH (x :: seen)) as [Hnd Hin].
      assert (~ In x seen) as Hout.
      { intro H. apply not_true_iff_false in Hx. apply Hx.
        apply existsb_exists. exists x. split; [assumption | apply String.eqb_refl]. }
      split.
      * constructor; [|assumption]. rewrite Hin. simpl. tauto.
      * intro k. simpl. rewrite Hin. simpl.
        destruct (string_dec x k) as [->|Hne]; tauto.
Qed.

Lemma converter_keys (f : Csv) :
  map fst (CsvToJson.mapping f) = first_seen (map (fun l => strip (f_app_no l)) f).
Proof.
  unfold CsvToJson.mapping, CsvToJson.grouped. rewrite map_map.
  rewrite (map_ext (fun kv => fst (CsvToJson.collapse kv)) fst) by reflexivity.
  now rewrite grouped_keys.
Qed.

Lemma converter_key_In (f : Csv) (k : string) :
  In k (map fst (CsvToJson.mapping f))
  <-> exists l : CsvRow, In l f /\ strip (f_app_no l) = k.
Proof.
  rewrite converter_keys. unfold first_seen.
  destruct (first_seen_from_spec (map (fun l => strip (f_app_no l)) f) [])
    as [_ Hin].
  rewrite Hin, in_map_iff. simpl. split.
  - intros [(l & <- & Hl) _]. now exists l.
  - intros (l & Hl & <-). split; [now exists l | tauto].
Qed.

(** The keys of the lookup that the converter builds are the stripped
    appeals case numbers of the lines, each once, in the order in which they
    first occur in the file; the empty key of a line without a number is
    among them. *)
Theorem converter_keys_first_seen :
  forall f : Csv,
    map fst (CsvToJson.mapping f) = first_seen (map (fun l => strip (f_app_no l)) f)
    /\ NoDup (map fst (CsvToJson.mapping f))
    /\ forall k : string,
         In k (map fst (CsvToJson.mapping f))
         <-> exists l : CsvRow, In l f /\ strip (f_app_no l) = k.
Proof.
  intro f. repeat split.
  - apply converter_keys.
  - rewrite converter_keys.
    exact (proj1 (first_seen_from_spec (map (fun l => strip (f_app_no l)) f) [])).
  - intro H. now apply converter_key_In in H.
  - intro H. now apply converter_key_In.
Qed.

Lemma total_flatten (m : Mapping) : total m = List.length (flatten m).
Proof.
  unfold total, flatten.
  induction m as [|kv m IH]; simpl; [reflexivity|].
  now rewrite length_app, length_map, IH.
Qed.

Lemma reload_isnull (f : Csv) :
  map (fun r => isnull (app_no r)) (reload f) = map (fun l => is_na (f_app_no l)) f.
Proof.
  rewrite reload_unfold, read_csv_unfold, !map_map. apply map_ext.
  intro l. unfold blank_missing_link, row_of_line, read_cell. simpl.
  destruct (is_na (f_app_link l)), (is_na (f_app_no l)); reflexivity.
Qed.

Lemma length_filter_by_map {A B} (p : A -> bool) (q : B -> bool)
      (l : list A) (l' : list B) :
  map p l = map q l' ->
  List.length (filter p l) = List.length (filter q l').
Proof.
  revert l'. induction l as [|x l IH]; intros [|y l'] H; simpl in *;
    try discriminate; [reflexivity|].
  inversion H as [[Hxy Hrest]]. rewrite Hxy.
  destruct (q y); simpl; now rewrite (IH l' Hrest).
Qed.

(** The number that each script prints at the end.  For the lookup of the
    pipeline it is the number of rows with an appeals case number, which for
    a run is the number of lines of the record file whose appeals field is
    not read as missing; for the converter it is the number of lines of the
    file. *)
Theorem summary_counts :
  (forall df : DataFrame,
     total (build_mapping df)
     = List.length (filter (fun r => negb (isnull (app_no r))) df))
  /\ (forall (existing : option Csv) (all_rows : list tuple5),
        total (snd (pipeline existing all_rows))
        = List.length (filter (fun l => negb (is_na (f_app_no l)))
                              (fst (pipeline existing all_rows))))
  /\ (forall f : Csv, total (CsvToJson.mapping f) = List.length f).
Proof.
  assert (Hinline : forall df : DataFrame,
             total (build_mapping df)
             = List.length (filter (fun r => negb (isnull (app_no r))) df)).
  { intro df. rewrite total_flatten.
    rewrite <- (Permutation_length (flatten_build_mapping_perm df)).
    now rewrite length_map. }
  repeat split.
  - exact Hinline.
  - intros existing all_rows. unfold pipeline. cbn [fst snd].
    rewrite Hinline. apply length_filter_by_map.
    rewrite <- (map_map (fun r => isnull (app_no r)) negb).
    rewrite <- (map_map (fun l => is_na (f_app_no l)) negb).
    f_equal. apply reload_isnull.
  - intro f. rewrite total_flatten.
    rewrite (Permutation_length (flatten_converter_perm f)).
    apply length_map.
Qed.

Lemma reload_plain (f : Csv) :
  Forall plain_line f -> reload f = map stripped_row_of_line f.
Proof.
  intro Hplain. rewrite reload_unfold, read_csv_unfold, map_map.
  apply map_ext_in. intros l Hl.
  destruct (proj1 (Forall_forall _ _) Hplain l Hl) as (H1 & H2 & H3 & H4 & H5).
  unfold row_of_line, blank_missing_link, strip_row, stripped_row_of_line, read_cell.
  rewrite H1, H2, H3, H5. simpl.
  destruct H4 as [H4|H4]; rewrite H4; reflexivity.
Qed.

Lemma with_key_stripped (k : string) (f : Csv) :
  with_key Pandas.appeals_case_number (Str k) (map stripped_row_of_line f)
  = map stripped_row_of_line (lines_with_key k f).
Proof.
  unfold with_key, lines_with_key.
  induction f as [|l f IH]; [reflexivity|].
  cbn [map filter].
  change (cell_eqb (get Pandas.appeals_case_number (stripped_row_of_line l)) (Str k))
    with (strip (f_app_no l) =? k).
  destruct (strip (f_app_no l) =? k); cbn [map]; now rewrite IH.
Qed.

Lemma map_members_collapsed (g : dict -> dict) (ds : list dict) :
  ds <> [] -> map_members g (collapsed ds) = collapsed (map g ds).
Proof.
  intro Hne. destruct ds as [|d [|d' ds]]; [congruence | reflexivity | reflexivity].
Qed.

(** On a record file in which nothing is read as a missing value, save for
    empty appeals links, the two builders store the same thing under every
    key: what the pipeline stores is what the converter stores with the
    appeals_case_number field taken out of each object.  (The order of the
    keys differs: sorted in the one, first seen in the other.) *)
Theorem builders_agree_on_plain_files :
  forall f : Csv,
    Forall plain_line f ->
    forall k : string,
      lookup k (build_mapping (reload f))
      = option_map (map_members (without_field "appeals_case_number"))
                   (lookup k (CsvToJson.mapping f)).
Proof.
  intros f Hplain k.
  rewrite lookup_build_mapping, lookup_converter, (reload_plain f Hplain).
  rewrite with_key_stripped.
  destruct (lines_with_key k f) as [|l g]; [reflexivity|].
  cbn [map option_map]. rewrite map_members_collapsed by discriminate.
  f_equal. f_equal. cbn [map]. f_equal.
  rewrite !map_map. apply map_ext. reflexivity.
Qed.

Lemma builders_agree_on_plain_files_witness :
  Forall plain_line plain_file
  /\ lookup "12/2020" (build_mapping (reload plain_file))
     = option_map (map_members (without_field "appeals_case_number"))
                  (lookup "12/2020" (CsvToJson.mapping plain_file)).
Proof.
  assert (Forall plain_line plain_file) as Hplain.
  { repeat constructor; right; reflexivity. }
  split; [exact Hplain|].
  exact (builders_agree_on_plain_files plain_file Hplain "12/2020").
Defined.

(** Every string that the converter stores, keys and field values, is
    whitespace-trimmed. *)
Theorem converter_lookup_is_trimmed :
  forall f : Csv, trimmed_mapping (CsvToJson.mapping f).
Proof.
  intro f. apply Forall_forall. intros kv Hkv. split.
  - assert (In (fst kv) (map fst (CsvToJson.mapping f))) as Hk by now apply in_map.
    apply converter_key_In in Hk. destruct Hk as (l & _ & <-).
    apply strip_trimmed.
  - apply Forall_forall. intros d Hd.
    destruct (converter_members f kv d Hkv Hd) as (l & _ & _ & ->).
    unfold trimmed_dict, CsvToJson.record_of.
    repeat constructor; simpl; apply strip_trimmed.
Qed.

Lemma reload_app_link (f : Csv) (r : Row) :
  In r (reload f) -> exists s : string, app_link r = Str s.
Proof.
  rewrite reload_unfold. intro Hr. apply in_map_iff in Hr.
  destruct Hr as (r0 & <- & _).
  unfold blank_missing_link. simpl.
  destruct (app_link r0) as [|s] eqn:Hl; simpl.
  - exists (strip ""). reflexivity.
  - rewrite Hl. simpl. now exists (strip s).
Qed.

(** In the lookup that a run writes, the appeals_case_link of an object is
    always a string, never a missing value: line 145 blanks the links that
    are read back as missing before the objects are built. *)
Theorem lookup_links_are_never_missing :
  forall (existing : option Csv) (all_rows : list tuple5),
    Forall (fun kv =>
              Forall (fun d => exists s : string,
                                 field "appeals_case_link" d = Some (Str s))
                     (members (snd kv)))
           (snd (pipeline existing all_rows)).
Proof.
  intros existing all_rows. unfold pipeline. cbn [snd].
  apply Forall_forall. intros kv Hkv. apply Forall_forall. intros d Hd.
  destruct (build_mapping_members _ kv d Hkv Hd) as (r & Hr & _ & ->).
  destruct (reload_app_link _ r Hr) as (s & Hs).
  exists s. unfold entry_of_row. simpl. now rewrite Hs.
Qed.

Lemma read_cell_Str (t s : string) : read_cell t = Str s -> is_na t = false /\ s = t.
Proof.
  unfold read_cell. destruct (is_na t); [discriminate|].
  intro H. inversion H. now split.
Qed.

(** The lookup that a run writes has no empty key, provided no line of the
    record file it starts from has an appeals field made of whitespace only
    (and no stored or scraped field holds a carriage return): a scraped row
    needs a number to pass the filter, and a stored line without one is read
    as missing and belongs to no group. *)
Theorem lookup_has_no_empty_key :
  forall (existing : option Csv) (all_rows : list tuple5),
    Forall no_cr_line (stored_lines existing) ->
    Forall no_cr_tuple all_rows ->
    Forall number_or_nothing (stored_lines existing) ->
    lookup "" (snd (pipeline existing all_rows)) = None.
Proof.
  intros existing all_rows _ _ Hstored. unfold pipeline. cbn [snd].
  rewrite lookup_build_mapping.
  match goal with
  | |- match ?g with _ => _ end = None =>
      destruct g as [|r g'] eqn:Hg; [reflexivity | exfalso]
  end.
  assert (In r (r :: g')) as Hr by now left.
  rewrite <- Hg in Hr. unfold with_key in Hr. apply filter_In in Hr.
  destruct Hr as [Hr Hk]. apply cell_eqb_eq in Hk. simpl in Hk.
  rewrite reload_unfold, read_csv_unfold, to_csv_unfold, !map_map in Hr.
  apply in_map_iff in Hr. destruct Hr as (m & <- & Hm).
  assert (exists s, read_cell (write_cell (app_no m)) = Str s /\ strip s = "")
    as (s & Hs & Hblank).
  { unfold blank_missing_link, row_of_line, line_of in Hk. simpl in Hk.
    destruct (isnull (read_cell (write_cell (app_link m)))); simpl in Hk;
      destruct (read_cell (write_cell (app_no m))) as [|s]; simpl in Hk;
      try discriminate; exists s; split; try reflexivity; now inversion Hk. }
  apply read_cell_Str in Hs. destruct Hs as [Hna ->].
  rewrite merge_unfold in Hm. apply drop_duplicates_In in Hm.
  apply in_app_or in Hm. destruct Hm as [Hm|Hm].
  - destruct existing as [f|]; [|contradiction].
    rewrite read_csv_unfold in Hm. apply in_map_iff in Hm.
    destruct Hm as (l & <- & Hl).
    destruct (proj1 (Forall_forall _ _) Hstored l Hl) as [Hmissing|Hleft].
    + unfold row_of_line, read_cell in Hna, Hblank. simpl in Hna, Hblank.
      rewrite Hmissing in Hna. simpl in Hna. discriminate Hna.
    + unfold row_of_line, read_cell in Hna, Hblank. simpl in Hna, Hblank.
      destruct (is_na (f_app_no l)); simpl in *; [discriminate Hna|].
      now apply Hleft.
  - unfold select in Hm. apply filter_In in Hm. destruct Hm as [Hm Hmask].
    unfold DataFrame_of in Hm. apply in_map_iff in Hm.
    destruct Hm as (t & <- & _).
    rewrite has_appeals_case_scraped in Hmask.
    destruct t as [[[[a b] c0] d] e]. simpl in *.
    rewrite Hblank in Hmask. discriminate Hmask.
Qed.

Lemma lookup_has_no_empty_key_witness :
  (Forall no_cr_line (stored_lines (Some [Examples.line_without_appeals; padded_nbsp_line]))
   /\ Forall no_cr_tuple [Examples.scraped_2024_10; Examples.scraped_unresolved]
   /\ Forall number_or_nothing
        (stored_lines (Some [Examples.line_without_appeals; padded_nbsp_line])))
  /\ lookup "" (snd (pipeline (Some [Examples.line_without_appeals; padded_nbsp_line])
                             [Examples.scraped_2024_10; Examples.scraped_unresolved]))
     = None.
Proof.
  assert (Forall no_cr_line
            (stored_lines (Some [Examples.line_without_appeals; padded_nbsp_line])))
    as Hcr by (repeat constructor).
  assert (Forall no_cr_tuple [Examples.scraped_2024_10; Examples.scraped_unresolved])
    as Hcr' by (repeat constructor).
  assert (Forall number_or_nothing
            (stored_lines (Some [Examples.line_without_appeals; padded_nbsp_line])))
    as H.
  { constructor; [left; reflexivity|]. constructor; [|constructor].
    right. vm_compute. discriminate. }
  split; [repeat split; assumption|].
  exact (lookup_has_no_empty_key
           (Some [Examples.line_without_appeals; padded_nbsp_line])
           [Examples.scraped_2024_10; Examples.scraped_unresolved] Hcr Hcr' H).
Defined.
